(** * AutoRecSys: the tuner control loop ([autorecsys/searcher/core/tuner.py])

    A shallow embedding of [BaseTuner] and [PipeTuner]: the search loop, the
    trial-end handler, construction, persistence of the tuner state and the
    per-trial artifacts.  Python code with side effects becomes a function in
    a state-and-exception monad that also records a call tree, so that the
    order of the calls a method makes on its collaborators can be stated. *)

From stdpp Require Import gmap strings list pretty.

Set Warnings "-register-all".

Local Open Scope Z_scope.
Local Open Scope string_scope.

(** ** Python values the tuner handles *)

(** [HyperParameters]: an ordered mapping from a name to a sampled value.
    The tuner only hands it around. *)
Definition HyperParameters : Type := list (string * Z).

(** Modelled from the spec: the [TrialStatus] enumeration of
    [autorecsys/searcher/core/trial.py], which is not among the sources.
    "States: IDLE, RUNNING, COMPLETED, STOPPED, and an implicit failure
    state"; [OtherStatus] stands for every other value a status can hold. *)
Inductive TrialStatus : Type :=
  | IDLE
  | RUNNING
  | COMPLETED
  | STOPPED
  | OtherStatus (name : string).

#[global] Instance TrialStatus_eq_dec : EqDecision TrialStatus.
Proof. solve_decision. Defined.

(** Modelled from the spec: the [Trial] record of
    [autorecsys/searcher/core/trial.py]; the fields the tuner reads. *)
Record Trial : Type := mkTrial {
  trial_id : string;
  hyperparameters : HyperParameters;
  status : TrialStatus
}.

(** Tuner state as [get_state] returns it: a dictionary of strings. *)
Definition State : Type := list (string * string).

(** Python exceptions. [Raised] is an exception of a collaborator. *)
Inductive exn : Type :=
  | ValueError (msg : string)
  | TypeError (msg : string)
  | NotImplementedError
  | AttributeError (msg : string)
  | NameError (msg : string)
  | KeyError (msg : string)
  | OSError (msg : string)
  | Raised (msg : string).

Inductive Result (A : Type) : Type :=
  | Ok (a : A)
  | Raise (e : exn).
Arguments Ok {A} a.
Arguments Raise {A} e.

(** ** The file system *)

Inductive Node : Type :=
  | Dir
  | File (content : string).

Abbreviation FS := (gmap string Node).

Fixpoint ends_with_sep (a : string) : bool :=
  match a with
  | EmptyString => false
  | String c EmptyString => bool_decide (String c EmptyString = "/")
  | String _ rest => ends_with_sep rest
  end.

(** [os.path.join(a, b)] of [posixpath], for two arguments. *)
Definition os_path_join (a b : string) : string :=
  if String.prefix "/" b then b
  else if bool_decide (a = "") || ends_with_sep a then a +:+ b
  else a +:+ "/" +:+ b.

(** [q] lies inside the directory [p]. *)
Definition inside (p q : string) : bool :=
  String.prefix (if ends_with_sep p then p else p +:+ "/") q.

Arguments os_path_join : simpl never.
Arguments inside : simpl never.

(** ** Events: the call tree of a run *)

Section Events.
(** [Loss]: what [model.train] returns as validation loss. *)
Context {Loss : Type}.

Definition Metrics : Type := list (string * Loss).

(** A call of a method of the Oracle. [create_trial] and [get_space] are
    recorded with what they returned ([None] when they raised). *)
Inductive OracleCall : Type :=
  | Call_set_project_dir (directory project_name : string) (overwrite : bool)
  | Call_get_space (returned : option HyperParameters)
  | Call_update_space (hp : HyperParameters)
  | Call_create_trial (tuner_id : Z) (returned : option Trial)
  | Call_update_trial (trial_id : string) (metrics : Metrics)
  | Call_end_trial (trial_id : string) (status : TrialStatus)
  | Call_get_best_trials (num_trials : nat).

Inductive FsOp : Type :=
  | Op_exists (p : string)
  | Op_rmtree (p : string)
  | Op_create_directory (p : string)
  | Op_write (p : string) (content : string)
  | Op_read (p : string).

(** A call on a model or pipeline object, or of a function of the
    pipeline library. *)
Inductive PipeCall : Type :=
  | Call_set_tunable_hps (hp : HyperParameters)
  | Call_Recommender
  | Call_train
  | Call_hyper_build (hp : HyperParameters)
  | Call_pipe_save_weights (dir : string)
  | Call_pipe_load_weights (dir : string).

(** A method of the tuner itself; its event holds the events of its body. *)
Inductive Method : Type :=
  | M_run_trial (trial : Trial)
  | M_on_trial_end (trial : Trial)
  | M_save_weights (trial : Trial)
  | M_load_model (trial : Trial)
  | M_save
  | M_reload
  | M_set_state (state : State).

Inductive Event : Type :=
  | EOracle (c : OracleCall)
  | EFs (op : FsOp)
  | EPipe (c : PipeCall)
  | EDisplay_on_trial_end (trial : Trial)
  | EMethod (m : Method) (inner : list Event).

(** All file-system operations of a call tree, in order. *)
Fixpoint fs_ops_of (e : Event) : list FsOp :=
  match e with
  | EFs op => [op]
  | EMethod _ inner => flat_map fs_ops_of inner
  | _ => []
  end.

Definition fs_ops (l : list Event) : list FsOp := flat_map fs_ops_of l.

(** All Oracle calls of a call tree, in order. *)
Fixpoint oracle_calls_of (e : Event) : list OracleCall :=
  match e with
  | EOracle c => [c]
  | EMethod _ inner => flat_map oracle_calls_of inner
  | _ => []
  end.

Definition oracle_calls (l : list Event) : list OracleCall :=
  flat_map oracle_calls_of l.
End Events.
Arguments Metrics : clear implicits.
Arguments OracleCall : clear implicits.
Arguments Event : clear implicits.

(** ** The monad: state, exceptions, and the call tree *)

Section Monad.
(** [O]: the internal state of the Oracle object. *)
Context {O Loss : Type}.

(** What a run can change: the file system and the Oracle. *)
Record St : Type := mkSt {
  fs : FS;
  ost : O
}.

(** The outcome of running a piece of code from a state. *)
Record Run (A : Type) : Type := mkRun {
  final : St;
  trace : list (Event Loss);
  result : Result A
}.
Arguments mkRun {A}.
Arguments final {A}.
Arguments trace {A}.
Arguments result {A}.

Definition M (A : Type) : Type := St -> Run A.

Definition ret {A} (a : A) : M A :=
  fun s => mkRun s [] (Ok a).

Definition raise {A} (e : exn) : M A :=
  fun s => mkRun s [] (Raise e).

Definition bind {A B} (m : M A) (k : A -> M B) : M B :=
  fun s =>
    let r := m s in
    match result r with
    | Ok a =>
        let r' := k a (final r) in
        mkRun (final r') (trace r ++ trace r') (result r')
    | Raise e => mkRun (final r) (trace r) (Raise e)
    end.

(** Code of a collaborator: it changes the state and returns or raises;
    the tuner does not see inside it. *)
Definition Ext (A : Type) : Type := St -> St * Result A.

(** Calling a collaborator, recording the call. *)
Definition call {A} (ev : Result A -> Event Loss) (f : Ext A) : M A :=
  fun s => let '(s', r) := f s in mkRun s' [ev r] r.

(** Running the body of a method of the tuner: its events become the
    children of one event. *)
Definition method {A} (m : Method) (body : M A) : M A :=
  fun s => let r := body s in mkRun (final r) [EMethod m (trace r)] (result r).

Definition returned {A} (r : Result A) : option A :=
  match r with Ok a => Some a | Raise _ => None end.

(** A run, after the events [l]. *)
Definition after {A} (l : list (Event Loss)) (r : Run A) : Run A :=
  mkRun (final r) (l ++ trace r) (result r).
End Monad.
Arguments St : clear implicits.
Arguments M : clear implicits.
Arguments Ext : clear implicits.
Arguments Run : clear implicits.
Arguments mkRun {O Loss A}.
Arguments final {O Loss A}.
Arguments trace {O Loss A}.
Arguments result {O Loss A}.

Declare Scope py_scope.
Delimit Scope py_scope with py.
Notation "'do' x <- m ; k" := (bind m (fun x => k))
  (at level 10, x name, m at level 100, k at level 200) : py_scope.
Notation "m ;; k" := (bind m (fun _ => k))
  (at level 100, k at level 200, right associativity) : py_scope.
Local Open Scope py_scope.

(** ** File-system primitives *)

Section FileSystem.
Context {O Loss : Type}.
Abbreviation M := (M O Loss).

Definition with_fs (s : St O) (f : FS) : St O := mkSt f (ost s).

(** [os.path.exists(p)] *)
Definition os_path_exists (p : string) : M bool :=
  fun s => mkRun s [EFs (Op_exists p)] (Ok (bool_decide (is_Some (fs s !! p)))).

(** [shutil.rmtree(p)]: removes the directory and all that lies inside it;
    raises when [p] is not a directory. *)
Definition shutil_rmtree (p : string) : M unit :=
  fun s =>
    match fs s !! p with
    | Some Dir =>
        mkRun (with_fs s (filter (fun kv => kv.1 <> p /\ inside p kv.1 = false) (fs s)))
              [EFs (Op_rmtree p)] (Ok tt)
    | _ => mkRun s [EFs (Op_rmtree p)] (Raise (OSError p))
    end.

(** Modelled from the spec: [create_directory] of [autorecsys/utils/common.py],
    which is not among the sources. "directories are created lazily and
    idempotently on first access", "create-if-absent". *)
Definition ensure_dir (p : string) (s : St O) : St O :=
  match fs s !! p with
  | Some _ => s
  | None => with_fs s (<[p := Dir]> (fs s))
  end.

Definition create_directory (p : string) : M unit :=
  fun s => mkRun (ensure_dir p s) [EFs (Op_create_directory p)] (Ok tt).

(** Writing a whole file, as [open(fname, 'w').write(content)]. *)
Definition write_file (p content : string) : M unit :=
  fun s => mkRun (with_fs s (<[p := File content]> (fs s)))
                 [EFs (Op_write p content)] (Ok tt).

(** Reading a whole file; raises when there is no such file. *)
Definition read_file (p : string) : M string :=
  fun s =>
    mkRun s [EFs (Op_read p)]
          (match fs s !! p with
           | Some (File content) => Ok content
           | _ => Raise (OSError p)
           end).
End FileSystem.

(** ** The Oracle, as the tuner sees it *)

Section OracleInterface.
Context {O Loss : Type}.
Abbreviation M := (M O Loss).
Abbreviation Ext := (Ext O).

(** The methods of an instance of [oracle_module.Oracle]
    ([autorecsys/searcher/core/oracle.py] is not among the sources: the
    tuner is verified against every implementation of the methods). *)
Record Oracle : Type := mkOracle {
  impl_set_project_dir : string -> string -> bool -> Ext unit;
  impl_get_space : Ext HyperParameters;
  impl_update_space : HyperParameters -> Ext unit;
  impl_create_trial : Z -> Ext Trial;
  impl_update_trial : string -> Metrics Loss -> Ext unit;
  impl_end_trial : string -> TrialStatus -> Ext unit;
  impl_get_best_trials : nat -> Ext (list Trial)
}.

(** The [oracle] argument of a constructor: any Python object.
    [repr] is what ['%s' % (oracle,)] prints. *)
Inductive OracleArg : Type :=
  | AnOracle (o : Oracle)
  | NotAnOracle (repr : string).

Definition Oracle_set_project_dir (o : Oracle) (d p : string) (overwrite : bool) : M unit :=
  call (fun _ => EOracle (Call_set_project_dir d p overwrite))
       (impl_set_project_dir o d p overwrite).

Definition Oracle_get_space (o : Oracle) : M HyperParameters :=
  call (fun r => EOracle (Call_get_space (returned r))) (impl_get_space o).

Definition Oracle_update_space (o : Oracle) (hp : HyperParameters) : M unit :=
  call (fun _ => EOracle (Call_update_space hp)) (impl_update_space o hp).

Definition Oracle_create_trial (o : Oracle) (tuner_id : Z) : M Trial :=
  call (fun r => EOracle (Call_create_trial tuner_id (returned r)))
       (impl_create_trial o tuner_id).

Definition Oracle_update_trial (o : Oracle) (id : string) (metrics : Metrics Loss) : M unit :=
  call (fun _ => EOracle (Call_update_trial id metrics)) (impl_update_trial o id metrics).

Definition Oracle_end_trial (o : Oracle) (id : string) (st : TrialStatus) : M unit :=
  call (fun _ => EOracle (Call_end_trial id st)) (impl_end_trial o id st).

Definition Oracle_get_best_trials (o : Oracle) (n : nat) : M (list Trial) :=
  call (fun _ => EOracle (Call_get_best_trials n)) (impl_get_best_trials o n).
End OracleInterface.
Arguments Oracle : clear implicits.
Arguments OracleArg : clear implicits.


(** ** [class BaseTuner(trial_module.Stateful)] *)

Section BaseTuner.
Context {O Loss : Type}.
Abbreviation M := (M O Loss).

(** [json.dumps] and [json.loads], as [Stateful.save] and [Stateful.reload]
    use them on the state dictionary. *)
Variable json_dumps : State -> string.
Variable json_loads : string -> option State.

(** The attributes [__init__] assigns. *)
Record BaseTuner : Type := mkBaseTuner {
  directory : string;
  project_name : string;
  oracle : Oracle O Loss;
  tuner_id : Z
}.

(** A class of tuners: [Self] is the instance, [Model] what [run_trial]
    hands to [on_trial_end]. The three methods are the ones [BaseTuner]
    leaves to its subclasses. *)
Record TunerClass (Self Model : Type) : Type := mkTunerClass {
  base : Self -> BaseTuner;
  run_trial : Self -> Trial -> M Model;
  save_weights : Self -> Trial -> Model -> M unit;
  load_model : Self -> Trial -> M Model
}.
Arguments base {Self Model}.
Arguments run_trial {Self Model}.
Arguments save_weights {Self Model}.
Arguments load_model {Self Model}.

(** [x or default] on an optional string: [None] and [''] are falsy. *)
Definition or_default (x : option string) (d : string) : string :=
  match x with
  | Some s => if bool_decide (s = "") then d else s
  | None => d
  end.

(** [str] of an integer. *)
Definition str (n : Z) : string := pretty n.

(** The property [project_dir]. *)
Definition project_dir (directory project_name : string) : M string :=
  let dirname := os_path_join directory project_name in
  create_directory dirname ;;
  ret dirname.

Definition get_trial_dir (self : BaseTuner) (trial_id : string) : M string :=
  do pd <- project_dir (directory self) (project_name self) ;
  let dirname := os_path_join pd ("trial_" +:+ trial_id) in
  create_directory dirname ;;
  ret dirname.

Definition _get_tuner_fname (self : BaseTuner) : M string :=
  do pd <- project_dir (directory self) (project_name self) ;
  ret (os_path_join pd ("tuner_" +:+ str (tuner_id self) +:+ ".json")).

(** [get_state]: [return {}]. *)
Definition get_state (self : BaseTuner) : State := [].

(** [set_state]: [pass]. *)
Definition set_state (self : BaseTuner) (state : State) : M unit :=
  ret tt.

(** Modelled from the spec: [Stateful.save] of
    [autorecsys/searcher/core/trial.py], which is not among the sources.
    "tuner state (get_state/set_state, default empty) is serialized to a
    per-tuner-instance file". *)
Definition Stateful_save (self : BaseTuner) (fname : string) : M unit :=
  let state := get_state self in
  write_file fname (json_dumps state).

(** Modelled from the spec: [Stateful.reload] of
    [autorecsys/searcher/core/trial.py], which is not among the sources.
    The state file "must round-trip through get_state/set_state". *)
Definition Stateful_reload (self : BaseTuner) (fname : string) : M unit :=
  do state_data <- read_file fname ;
  match json_loads state_data with
  | Some state => method (M_set_state state) (set_state self state)
  | None => raise (ValueError "Expecting value")
  end.

Definition save (self : BaseTuner) : M unit :=
  do fname <- _get_tuner_fname self ;
  Stateful_save self fname.

Definition reload (self : BaseTuner) : M unit :=
  do fname <- _get_tuner_fname self ;
  Stateful_reload self fname.

(** [Display.on_trial_end]: prints a section title and the trial's summary. *)
Definition Display_on_trial_end (trial : Trial) : M unit :=
  fun s => mkRun s [EDisplay_on_trial_end trial] (Ok tt).

(** The project directory of a construction. *)
Definition project_root (directory project_name : option string) : string :=
  os_path_join (or_default directory ".") (or_default project_name "untitled_project").

Definition not_an_oracle_error (repr : string) : exn :=
  ValueError ("Expected oracle to be an instance of Oracle, got: " +:+ repr).

(** [__init__], first statement after the two assignments:
    [if overwrite and os.path.exists(self.project_dir):
         shutil.rmtree(self.project_dir)] *)
Definition init_remove_project (directory project_name : string) (overwrite : bool)
    : M unit :=
  if overwrite then
    do pd <- project_dir directory project_name ;
    do found <- os_path_exists pd ;
    if found then
      do pd' <- project_dir directory project_name ;
      shutil_rmtree pd'
    else ret tt
  else ret tt.

(** [__init__], last statement:
    [if not overwrite and os.path.exists(self._get_tuner_fname()):
         LOGGER.info('Reloading Tuner from {}'.format(self._get_tuner_fname()))
         self.reload()] *)
Definition init_reload (self : BaseTuner) (overwrite : bool) : M unit :=
  if negb overwrite then
    do fname <- _get_tuner_fname self ;
    do found <- os_path_exists fname ;
    if found then
      _get_tuner_fname self ;;
      method M_reload (reload self)
    else ret tt
  else ret tt.

(** [BaseTuner.__init__] *)
Definition BaseTuner_init (oracle : OracleArg O Loss)
    (directory project_name : option string) (tuner_id : option Z)
    (overwrite : bool) : M BaseTuner :=
  let directory := or_default directory "." in
  let project_name := or_default project_name "untitled_project" in
  init_remove_project directory project_name overwrite ;;
  match oracle with
  | NotAnOracle repr => raise (not_an_oracle_error repr)
  | AnOracle oracle =>
      Oracle_set_project_dir oracle directory project_name overwrite ;;
      let tuner_id := match tuner_id with Some i => i | None => 0 end in
      let self := mkBaseTuner directory project_name oracle tuner_id in
      do hp <- Oracle_get_space oracle ;
      Oracle_update_space oracle hp ;;
      init_reload self overwrite ;;
      ret self
  end.

Section Methods.
Context {Self Model : Type} (cls : TunerClass Self Model).

(** [BaseTuner.on_trial_end] *)
Definition on_trial_end (self : Self) (trial : Trial) (model : Model) : M unit :=
  Oracle_end_trial (oracle (base cls self)) (trial_id trial) COMPLETED ;;
  method (M_save_weights trial) (save_weights cls self trial model) ;;
  Oracle_update_space (oracle (base cls self)) (hyperparameters trial) ;;
  Display_on_trial_end trial ;;
  method M_save (save (base cls self)).

(** What one pass through the body of [while True] ends with. *)
Inductive Flow : Type :=
  | Break
  | Continue.

(** The body of the loop of [BaseTuner.search]. *)
Definition search_iteration (self : Self) : M Flow :=
  do trial <- Oracle_create_trial (oracle (base cls self)) (tuner_id (base cls self)) ;
  if bool_decide (status trial = STOPPED) then ret Break
  else if bool_decide (status trial = IDLE) then ret Continue
  else
    do model <- method (M_run_trial trial) (run_trial cls self trial) ;
    method (M_on_trial_end trial) (on_trial_end self trial model) ;;
    ret Continue.

(** [BaseTuner.search]: [while True], unrolled at most [fuel] times.
    [Some tt]: the loop was left by [break] and [search] returned;
    [None]: the loop is still running after [fuel] passes. *)
Fixpoint search (fuel : nat) (self : Self) : M (option unit) :=
  match fuel with
  | 0%nat => ret None
  | S fuel' =>
      do flow <- search_iteration self ;
      match flow with
      | Break => ret (Some tt)
      | Continue => search fuel' self
      end
  end.

(** The list comprehension [[f(x) for x in xs]]. *)
Fixpoint comprehension {A B} (f : A -> M B) (xs : list A) : M (list B) :=
  match xs with
  | [] => ret []
  | x :: rest =>
      do y <- f x ;
      do ys <- comprehension f rest ;
      ret (y :: ys)
  end.

(** [BaseTuner.get_best_models] *)
Definition get_best_models (self : Self) (num_models : nat) : M (list Model) :=
  do best_trials <- Oracle_get_best_trials (oracle (base cls self)) num_models ;
  comprehension (fun trial => method (M_load_model trial) (load_model cls self trial))
                best_trials.
End Methods.

(** [BaseTuner] itself: the three methods raise [NotImplementedError]. *)
Definition BaseTuner_class (Model : Type) : TunerClass BaseTuner Model :=
  {| base := fun self => self;
     run_trial := fun _ _ => raise NotImplementedError;
     save_weights := fun _ _ _ => raise NotImplementedError;
     load_model := fun _ _ => raise NotImplementedError |}.
End BaseTuner.
Arguments BaseTuner : clear implicits.
Arguments TunerClass : clear implicits.
Arguments base {O Loss Self Model}.
Arguments run_trial {O Loss Self Model}.
Arguments save_weights {O Loss Self Model}.
Arguments load_model {O Loss Self Model}.
Arguments Display_on_trial_end {O Loss}.
Arguments project_dir {O Loss}.
Arguments get_trial_dir {O Loss}.
Arguments _get_tuner_fname {O Loss}.
Arguments get_state {O Loss}.
Arguments str : simpl never.
Arguments init_remove_project : simpl never.
Arguments init_reload : simpl never.
Arguments set_state {O Loss}.

(** ** [class PipeTuner(BaseTuner)] *)

Section PipeTuner.
(** [Pipe]: a recommender or pipeline object; [Cfg]: a configuration value;
    [Data]: a data set. *)
Context {O Loss Pipe Cfg Data : Type}.
Abbreviation M := (M O Loss).
Abbreviation Ext := (Ext O).

Variable json_dumps : State -> string.
Variable json_loads : string -> option State.

(** The [model] argument of the constructor: any Python object. *)
Inductive ModelArg : Type :=
  | A_CFRecommender (p : Pipe)
  | A_CTRRecommender (p : Pipe)
  | NotARecommender.

(** The methods of the pipeline library the tuner calls; none of it is
    among the sources. [lib_train] gives the second component of what
    [model.train] returns (the first is dropped by the caller);
    [lib_load_weights] gives the object with the weights loaded. *)
Record PipeLib : Type := mkPipeLib {
  lib_set_tunable_hps : Cfg -> HyperParameters -> Ext Cfg;
  lib_train : Pipe -> Data -> Data -> Data -> Data -> gmap string Cfg -> Ext Loss;
  lib_hyper_build : Pipe -> HyperParameters -> Ext Pipe;
  lib_save_weights : Pipe -> string -> Ext unit;
  lib_load_weights : Pipe -> string -> Ext Pipe
}.

(** The names [run_trial] looks up in the globals of the module. The module
    imports [CTRRecommender] and [CFRecommender] only: [Recommender] is
    bound only if something else binds it. *)
Record Globals : Type := mkGlobals {
  Recommender : option (Cfg -> Ext Pipe)
}.

(** The globals of [tuner.py] as the file is written. *)
Definition module_globals : Globals := {| Recommender := None |}.

(** The attributes of an instance. [__init__] assigns [_pipe] and
    [context]; [config], [train_X], [train_y], [val_X] and [val_y] are read
    by [run_trial] and [get_scores] and assigned nowhere in the class
    ([None]: the instance has no such attribute). *)
Record PipeTuner : Type := mkPipeTuner {
  super : BaseTuner O Loss;
  _pipe : Pipe;
  context : list (string * Data);
  config : option (gmap string Cfg);
  train_X : option Data;
  train_y : option Data;
  val_X : option Data;
  val_y : option Data
}.

(** [self.name]: [AttributeError] when the instance has no such attribute. *)
Definition getattr {A} (attr : option A) (name : string) : M A :=
  match attr with
  | Some a => ret a
  | None => raise (AttributeError ("'PipeTuner' object has no attribute '" +:+ name +:+ "'"))
  end.

(** [d[key]] on a dictionary. *)
Definition getitem (d : gmap string Cfg) (key : string) : M Cfg :=
  match d !! key with
  | Some v => ret v
  | None => raise (KeyError key)
  end.

(** [PipeTuner.__init__] *)
Definition PipeTuner_init (oracle : OracleArg O Loss) (model : ModelArg)
    (directory project_name : option string) (tuner_id : option Z)
    (overwrite : bool) : M PipeTuner :=
  do b <- BaseTuner_init json_loads oracle directory project_name tuner_id overwrite ;
  match model with
  | NotARecommender =>
      raise (TypeError "PipeTuner.model must be an instance of CFRecommender or CTRRecommender!")
  | A_CFRecommender p | A_CTRRecommender p =>
      ret (mkPipeTuner b p [] None None None None None)
  end.

Variable lib : PipeLib.
Variable globals : Globals.

(** [PipeTuner.get_scores] *)
Definition get_scores (self : PipeTuner) (model : Pipe) : M (Metrics Loss) :=
  do tx <- getattr (train_X self) "train_X" ;
  do ty <- getattr (train_y self) "train_y" ;
  do vx <- getattr (val_X self) "val_X" ;
  do vy <- getattr (val_y self) "val_y" ;
  do cfg <- getattr (config self) "config" ;
  do val_loss <- call (fun _ => EPipe Call_train) (lib_train lib model tx ty vx vy cfg) ;
  ret [("mse", val_loss)].

(** [PipeTuner.run_trial]; it has no [return]: the caller gets [None]. *)
Definition PipeTuner_run_trial (self : PipeTuner) (trial : Trial) : M (option Pipe) :=
  do cfg <- getattr (config self) "config" ;
  do model_option <- getitem cfg "ModelOption" ;
  do new_model_config <-
     call (fun _ => EPipe (Call_set_tunable_hps (hyperparameters trial)))
          (lib_set_tunable_hps lib model_option (hyperparameters trial)) ;
  do new_model <-
     match Recommender globals with
     | Some new => call (fun _ => EPipe Call_Recommender) (new new_model_config)
     | None => raise (NameError "name 'Recommender' is not defined")
     end ;
  do scores <- get_scores self new_model ;
  Oracle_update_trial (oracle (super self)) (trial_id trial) scores ;;
  ret None.

(** [PipeTuner.save_weights]; [pipe] is whatever [run_trial] returned. *)
Definition PipeTuner_save_weights (self : PipeTuner) (trial : Trial)
    (pipe : option Pipe) : M unit :=
  do trial_dir <- get_trial_dir (super self) (trial_id trial) ;
  match pipe with
  | Some p => call (fun _ => EPipe (Call_pipe_save_weights trial_dir))
                   (lib_save_weights lib p trial_dir)
  | None => raise (AttributeError "'NoneType' object has no attribute 'save_weights'")
  end.

(** [PipeTuner._get_pipeline] *)
Definition _get_pipeline (self : PipeTuner) (hp : HyperParameters) : M Pipe :=
  call (fun _ => EPipe (Call_hyper_build hp)) (lib_hyper_build lib (_pipe self) hp).

(** [PipeTuner.load_model] *)
Definition PipeTuner_load_model (self : PipeTuner) (trial : Trial) : M (option Pipe) :=
  do trial_dir <- get_trial_dir (super self) (trial_id trial) ;
  do pipe <- _get_pipeline self (hyperparameters trial) ;
  do pipe' <- call (fun _ => EPipe (Call_pipe_load_weights trial_dir))
                   (lib_load_weights lib pipe trial_dir) ;
  ret (Some pipe').

Definition PipeTuner_class : TunerClass O Loss PipeTuner (option Pipe) :=
  {| base := super;
     run_trial := PipeTuner_run_trial;
     save_weights := PipeTuner_save_weights;
     load_model := PipeTuner_load_model |}.
End PipeTuner.
Arguments PipeTuner : clear implicits.
Arguments PipeLib : clear implicits.
Arguments Globals : clear implicits.
Arguments ModelArg : clear implicits.

(** ** Test doubles

    A scripted Oracle, a tuner whose three methods do nothing, a pipeline
    library and a serializer: the concrete collaborators the general
    statements below are instantiated with. *)

Module Double.

(** The state of the scripted Oracle: the trials it will hand out, the trial
    it hands out once the script is used up, its ranking, its search space,
    and the trials that were ended. *)
Record OState : Type := mkOState {
  pending : list Trial;
  fallback : Trial;
  ranked : list Trial;
  space : HyperParameters;
  ended : list (string * TrialStatus)
}.

Definition quiet (s : St OState) : St OState * Result unit := (s, Ok tt).

Definition scripted_create_trial (tuner_id : Z) (s : St OState)
    : St OState * Result Trial :=
  match pending (ost s) with
  | t :: rest =>
      (mkSt (fs s) (mkOState rest (fallback (ost s)) (ranked (ost s))
                             (space (ost s)) (ended (ost s))), Ok t)
  | [] => (s, Ok (fallback (ost s)))
  end.

Definition scripted_update_space (hp : HyperParameters) (s : St OState)
    : St OState * Result unit :=
  (mkSt (fs s) (mkOState (pending (ost s)) (fallback (ost s)) (ranked (ost s))
                         (space (ost s) ++ hp)%list (ended (ost s))), Ok tt).

Definition scripted_end_trial (id : string) (st : TrialStatus) (s : St OState)
    : St OState * Result unit :=
  (mkSt (fs s) (mkOState (pending (ost s)) (fallback (ost s)) (ranked (ost s))
                         (space (ost s)) (ended (ost s) ++ [(id, st)])%list), Ok tt).

Definition scripted (Loss : Type) : Oracle OState Loss :=
  {| impl_set_project_dir := fun _ _ _ => quiet;
     impl_get_space := fun s => (s, Ok (space (ost s)));
     impl_update_space := scripted_update_space;
     impl_create_trial := scripted_create_trial;
     impl_update_trial := fun _ _ => quiet;
     impl_end_trial := scripted_end_trial;
     impl_get_best_trials := fun n s => (s, Ok (take n (ranked (ost s)))) |}.

(** A subclass of [BaseTuner] whose [run_trial] and [save_weights] are
    [pass] and whose [load_model] returns the trial's id. *)
Definition Stub_class (O Loss : Type)
    : TunerClass O Loss (BaseTuner O Loss) (option string) :=
  {| base := fun self => self;
     run_trial := fun _ _ => ret None;
     save_weights := fun _ _ _ => ret tt;
     load_model := fun _ trial => ret (Some (trial_id trial)) |}.

(** A subclass of [BaseTuner] that overrides [run_trial] alone, with
    [pass]: [save_weights] and [load_model] are those of [BaseTuner]. *)
Definition RunOnly_class (O Loss : Type)
    : TunerClass O Loss (BaseTuner O Loss) (option string) :=
  {| base := fun self => self;
     run_trial := fun _ _ => ret None;
     save_weights := fun _ _ _ => raise NotImplementedError;
     load_model := fun _ _ => raise NotImplementedError |}.

(** A serializer for the empty state. *)
Definition dumps (st : State) : string :=
  match st with
  | [] => "{}"
  | _ => "{...}"
  end.

Definition loads (data : string) : option State :=
  if bool_decide (data = "{}") then Some [] else None.

(** A pipeline library: a model is the text of its weights, its validation
    loss has two outputs. *)
Definition lib : PipeLib OState (list Z) string Z unit :=
  {| lib_set_tunable_hps := fun cfg _ s => (s, Ok cfg);
     lib_train := fun _ _ _ _ _ _ s => (s, Ok [1; 2]);
     lib_hyper_build := fun p _ s => (s, Ok p);
     lib_save_weights := fun p dir s =>
       (mkSt (<[os_path_join dir "weights" := File p]> (fs s)) (ost s), Ok tt);
     lib_load_weights := fun _ dir s =>
       (s, match fs s !! os_path_join dir "weights" with
           | Some (File w) => Ok w
           | _ => Raise (Raised "no weights")
           end) |}.

(** Globals in which something has bound [Recommender]. *)
Definition patched_globals : Globals OState string Z :=
  {| Recommender := Some (fun _ s => (s, Ok "fresh")) |}.

Definition running (id : string) (hp : HyperParameters) : Trial := mkTrial id hp RUNNING.
Definition stopped : Trial := mkTrial "" [] STOPPED.

Definition ostate (script : list Trial) (last : Trial) (best : list Trial) : OState :=
  mkOState script last best [] [].
End Double.

(** ** Observations on call trees *)

Section Observations.
Context {Loss : Type}.

(** An event without the events of its body. *)
Definition outline (e : Event Loss) : Event Loss :=
  match e with
  | EMethod m _ => EMethod m []
  | _ => e
  end.

(** The five steps of [on_trial_end], as the outline of its events. *)
Definition five_steps (trial : Trial) : list (Event Loss) :=
  [ EOracle (Call_end_trial (trial_id trial) COMPLETED);
    EMethod (M_save_weights trial) [];
    EOracle (Call_update_space (hyperparameters trial));
    EDisplay_on_trial_end trial;
    EMethod M_save [] ].

(** The trials [on_trial_end] was called with, in order. *)
Definition on_trial_end_calls (l : list (Event Loss)) : list Trial :=
  omap (fun e => match e with
                 | EMethod (M_on_trial_end t) _ => Some t
                 | _ => None
                 end) l.

(** The trials [run_trial] was called with, in order. *)
Definition run_trial_calls (l : list (Event Loss)) : list Trial :=
  omap (fun e => match e with
                 | EMethod (M_run_trial t) _ => Some t
                 | _ => None
                 end) l.

(** The trials [load_model] was called with, in order. *)
Definition load_model_calls (l : list (Event Loss)) : list Trial :=
  omap (fun e => match e with
                 | EMethod (M_load_model t) _ => Some t
                 | _ => None
                 end) l.

Definition is_fs_op (e : Event Loss) : bool :=
  match e with
  | EFs _ => true
  | _ => false
  end.

(** The Oracle handed out trial [t] to tuner [tuner_id]. *)
Definition handed_out (tuner_id : Z) (t : Trial) : Event Loss :=
  EOracle (Call_create_trial tuner_id (Some t)).

(** The trials [create_trial] returned, in order. *)
Definition handed_out_trials (l : list (Event Loss)) : list Trial :=
  omap (fun e => match e with
                 | EOracle (Call_create_trial _ (Some t)) => Some t
                 | _ => None
                 end) l.
End Observations.

(** A collaborator's method that returns and leaves the file [q] as it is. *)
Definition returns_keeping {O A : Type} (q : string) (f : Ext O A) : Prop :=
  forall s, fs (f s).1 !! q = fs s !! q /\ exists a, (f s).2 = Ok a.

(** The state file of tuner [tuner_id] in a project. *)
Definition tuner_file (directory project_name : option string) (tuner_id : option Z)
    : string :=
  os_path_join (project_root directory project_name)
    ("tuner_" +:+ str (match tuner_id with Some i => i | None => 0 end) +:+ ".json").

(** A trial that [search] runs: its status is neither [STOPPED] nor [IDLE]. *)
Definition runnable (t : Trial) : Prop :=
  status t <> STOPPED /\ status t <> IDLE.

#[global] Instance runnable_dec (t : Trial) : Decision (runnable t) := and_dec _ _.

(** A file-system operation that removes or overwrites something. *)
Definition destructive (op : FsOp) : bool :=
  match op with
  | Op_rmtree _ | Op_write _ _ => true
  | _ => false
  end.

(** The directory of a trial in a project. *)
Definition trial_dir (root trial_id : string) : string :=
  os_path_join root ("trial_" +:+ trial_id).

(** The state file of a tuner, as [_get_tuner_fname] names it. *)
Definition state_file {O Loss : Type} (self : BaseTuner O Loss) : string :=
  os_path_join (os_path_join (directory self) (project_name self))
    ("tuner_" +:+ str (tuner_id self) +:+ ".json").

(** * Properties *)

(** ** Running a sequence *)

Section Sequencing.
Context {O Loss : Type}.
Implicit Types s : St O.

Lemma bind_Ok {A B} (m : M O Loss A) (k : A -> M O Loss B) s a :
  result (m s) = Ok a ->
  bind m k s = mkRun (final (k a (final (m s))))
                     (trace (m s) ++ trace (k a (final (m s))))
                     (result (k a (final (m s)))).
Proof. intros H. unfold bind. now rewrite H. Qed.

Lemma bind_Raise {A B} (m : M O Loss A) (k : A -> M O Loss B) s e :
  result (m s) = Raise e ->
  bind m k s = mkRun (final (m s)) (trace (m s)) (Raise e).
Proof. intros H. unfold bind. now rewrite H. Qed.

Lemma bind_trace_prefix {A B} (m : M O Loss A) (k : A -> M O Loss B) s :
  trace (m s) `prefix_of` trace (bind m k s).
Proof.
  unfold bind. destruct (result (m s)); simpl.
  - now exists (trace (k a (final (m s)))).
  - reflexivity.
Qed.

Lemma call_run {A} (ev : Result A -> Event Loss) (f : Ext O A) s :
  call ev f s = mkRun (f s).1 [ev (f s).2] (f s).2.
Proof. unfold call. now destruct (f s). Qed.

Lemma method_run {A} (m : Method) (body : M O Loss A) s :
  method m body s = mkRun (final (body s)) [EMethod m (trace (body s))] (result (body s)).
Proof. reflexivity. Qed.

(** A first step that returns: the rest runs from where it ended. *)
Lemma bind_step {A B} (m : M O Loss A) (k : A -> M O Loss B) s s' l a :
  m s = mkRun s' l (Ok a) -> bind m k s = after l (k a s').
Proof. intros H. unfold bind, after. by rewrite H. Qed.

Lemma bind_stop {A B} (m : M O Loss A) (k : A -> M O Loss B) s s' l e :
  m s = mkRun s' l (Raise e) -> bind m k s = mkRun s' l (Raise e).
Proof. intros H. unfold bind. by rewrite H. Qed.

Lemma after_after {A} (l1 l2 : list (Event Loss)) (r : Run O Loss A) :
  after l1 (after l2 r) = after (l1 ++ l2) r.
Proof. unfold after. simpl. by rewrite app_assoc. Qed.

Lemma ensure_dir_lookup (q : string) s : is_Some (fs (ensure_dir q s) !! q).
Proof.
  unfold ensure_dir. destruct (fs s !! q) eqn:Hq; simpl.
  - by rewrite Hq.
  - by rewrite lookup_insert_eq.
Qed.

Lemma ensure_dir_lookup_ne (q q' : string) s :
  q' <> q -> fs (ensure_dir q s) !! q' = fs s !! q'.
Proof.
  intros Hne. unfold ensure_dir. destruct (fs s !! q); simpl; [done|].
  by rewrite lookup_insert_ne.
Qed.

Lemma ensure_dir_ost (q : string) s : ost (ensure_dir q s) = ost s.
Proof. unfold ensure_dir. by destruct (fs s !! q). Qed.

Lemma ensure_dir_again (q : string) s : ensure_dir q (ensure_dir q s) = ensure_dir q s.
Proof.
  destruct (ensure_dir_lookup q s) as [node Hnode].
  unfold ensure_dir at 1. by rewrite Hnode.
Qed.

Lemma ensure_dir_kept (q : string) s node :
  fs s !! q = Some node -> ensure_dir q s = s.
Proof. intros H. unfold ensure_dir. by rewrite H. Qed.

Lemma project_dir_run (d' p' : string) s :
  project_dir (Loss:=Loss) d' p' s
  = mkRun (ensure_dir (os_path_join d' p') s)
          [EFs (Op_create_directory (os_path_join d' p'))] (Ok (os_path_join d' p')).
Proof. reflexivity. Qed.

Lemma _get_tuner_fname_run (self : BaseTuner O Loss) s :
  let root := os_path_join (directory self) (project_name self) in
  _get_tuner_fname self s
  = mkRun (ensure_dir root s) [EFs (Op_create_directory root)]
          (Ok (os_path_join root ("tuner_" +:+ str (tuner_id self) +:+ ".json"))).
Proof. reflexivity. Qed.

Lemma save_run (json_dumps : State -> string) (self : BaseTuner O Loss) s :
  let root := os_path_join (directory self) (project_name self) in
  let fname := os_path_join root ("tuner_" +:+ str (tuner_id self) +:+ ".json") in
  let content := json_dumps (get_state self) in
  save json_dumps self s
  = mkRun (with_fs (ensure_dir root s) (<[fname := File content]> (fs (ensure_dir root s))))
          [EFs (Op_create_directory root); EFs (Op_write fname content)] (Ok tt).
Proof. reflexivity. Qed.
End Sequencing.

(** ** The trial-end handler *)

Section TrialEnd.
Context {O Loss Self Model : Type}.
Variable json_dumps : State -> string.
Variable cls : TunerClass O Loss Self Model.

(** C1, as the code has it. [BaseTuner.on_trial_end] attempts five steps
    in a fixed order, each from the state the one before it left:
    [Oracle.end_trial] with [COMPLETED], [save_weights] with the trial and
    the model, [Oracle.update_space] with the trial's hyperparameters,
    [Display.on_trial_end], and [save], which writes [get_state()] to the
    state file of the tuner. A step that raises ends [on_trial_end] with
    its exception, and no later step is made; when the first three steps
    return, the steps are exactly the five, [save] is the last of them and
    [on_trial_end] returns. *)
Theorem on_trial_end_five_steps (self : Self) (trial : Trial) (model : Model)
    (s s1 s3 : St O) (a1 a3 : Result unit) :
  let o := oracle (base cls self) in
  let r2 := save_weights cls self trial model s1 in
  let r5 := save json_dumps (base cls self) s3 in
  let e1 := EOracle (Call_end_trial (trial_id trial) COMPLETED) in
  let e2 := EMethod (M_save_weights trial) (trace r2) in
  let e3 := EOracle (Call_update_space (hyperparameters trial)) in
  impl_end_trial o (trial_id trial) COMPLETED s = (s1, a1) ->
  impl_update_space o (hyperparameters trial) (final r2) = (s3, a3) ->
  on_trial_end json_dumps cls self trial model s
  = match a1, result r2, a3 with
    | Raise e, _, _ => mkRun s1 [e1] (Raise e)
    | Ok _, Raise e, _ => mkRun (final r2) [e1; e2] (Raise e)
    | Ok _, Ok _, Raise e => mkRun s3 [e1; e2; e3] (Raise e)
    | Ok _, Ok _, Ok _ =>
        mkRun (final r5)
              [e1; e2; e3; EDisplay_on_trial_end trial; EMethod M_save (trace r5)]
              (Ok tt)
    end /\
  trace r5 = [EFs (Op_create_directory
                     (os_path_join (directory (base cls self)) (project_name (base cls self))));
              EFs (Op_write (state_file (base cls self))
                            (json_dumps (get_state (base cls self))))] /\
  fs (final r5) !! state_file (base cls self)
  = Some (File (json_dumps (get_state (base cls self)))) /\
  ost (final r5) = ost s3.
Proof.
  intros o r2 r5 e1 e2 e3 H1 H3. split.
  - unfold on_trial_end, Oracle_end_trial, Oracle_update_space.
    destruct a1 as [[]|e]; cycle 1.
    { erewrite bind_stop by (unfold call; fold o; rewrite H1; reflexivity). done. }
    erewrite bind_step by (unfold call; fold o; rewrite H1; reflexivity).
    assert (method (M_save_weights trial) (save_weights cls self trial model) s1
            = mkRun (final r2) [e2] (result r2)) as Hm by reflexivity.
    destruct (result r2) as [[]|e]; cycle 1.
    { erewrite bind_stop by exact Hm. done. }
    erewrite bind_step by exact Hm.
    destruct a3 as [[]|e]; cycle 1.
    { erewrite bind_stop by (unfold call; fold o; rewrite H3; reflexivity). done. }
    erewrite bind_step by (unfold call; fold o; rewrite H3; reflexivity).
    erewrite bind_step by reflexivity.
    rewrite method_run. fold r5. subst r5. rewrite save_run. reflexivity.
  - subst r5. rewrite save_run. cbn [trace final fs with_fs ost].
    split; [done|]. split; [apply lookup_insert_eq|apply ensure_dir_ost].
Qed.
End TrialEnd.

(** The five steps: the stub tuner on the scripted Oracle. *)
Lemma on_trial_end_five_steps_witness :
  let self := mkBaseTuner "." "p" (Double.scripted Z) 0 in
  let trial := Double.running "a" [("units", 32)] in
  let s := mkSt ∅ (Double.ostate [] Double.stopped []) in
  let r := on_trial_end Double.dumps (Double.Stub_class _ _) self trial None s in
  map outline (trace r) = five_steps trial /\ result r = Ok tt /\
  fs (final r) !! "./p/tuner_0.json" = Some (File "{}").
Proof.
  intros self trial s r.
  destruct (on_trial_end_five_steps Double.dumps (Double.Stub_class _ _) self trial None
              s _ _ (Ok tt) (Ok tt) eq_refl eq_refl) as [Hrun _].
  subst r. rewrite Hrun. vm_compute. repeat split.
Defined.

(** [BaseTuner] itself: [save_weights] is not implemented, and the steps
    end with the second. Nothing is saved. *)
Lemma on_trial_end_five_steps_counterexample :
  let self := mkBaseTuner "." "p" (Double.scripted Z) 0 in
  let trial := Double.running "a" [("units", 32)] in
  let s := mkSt ∅ (Double.ostate [] Double.stopped []) in
  let r := on_trial_end Double.dumps (BaseTuner_class (option string)) self trial None s in
  result r = Raise NotImplementedError /\
  map outline (trace r) = [EOracle (Call_end_trial "a" COMPLETED);
                           EMethod (M_save_weights trial) []] /\
  map outline (trace r) <> five_steps trial /\
  fs (final r) = ∅.
Proof. vm_compute. repeat split. discriminate. Qed.

(** ** The search loop *)

Section Search.
Context {O Loss Self Model : Type}.
Variable json_dumps : State -> string.
Variable cls : TunerClass O Loss Self Model.
Implicit Types (s : St O) (self : Self) (t : Trial).

(** One pass through the loop, case by case. *)
Lemma search_iteration_run self s :
  search_iteration json_dumps cls self s =
  let o := oracle (base cls self) in
  let tid := tuner_id (base cls self) in
  let '(s1, answer) := impl_create_trial o tid s in
  match answer with
  | Raise e => mkRun s1 [EOracle (Call_create_trial tid None)] (Raise e)
  | Ok t =>
      if bool_decide (status t = STOPPED) then mkRun s1 [handed_out tid t] (Ok Break)
      else if bool_decide (status t = IDLE) then mkRun s1 [handed_out tid t] (Ok Continue)
      else
        let r1 := run_trial cls self t s1 in
        match result r1 with
        | Raise e =>
            mkRun (final r1) [handed_out tid t; EMethod (M_run_trial t) (trace r1)] (Raise e)
        | Ok model =>
            let r2 := on_trial_end json_dumps cls self t model (final r1) in
            mkRun (final r2)
                  [handed_out tid t; EMethod (M_run_trial t) (trace r1);
                   EMethod (M_on_trial_end t) (trace r2)]
                  (match result r2 with Ok _ => Ok Continue | Raise e => Raise e end)
        end
  end.
Proof.
  unfold search_iteration, Oracle_create_trial, bind at 1, call, handed_out. simpl.
  destruct (impl_create_trial _ _ s) as [s1 [t|e]]; simpl; [|done].
  case_bool_decide; [done|]. case_bool_decide; [done|].
  unfold bind, method. simpl.
  destruct (result (run_trial cls self t s1)) as [model|e]; simpl; [|done].
  by destruct (result (on_trial_end _ _ _ _ _ _)).
Qed.

(** C9. The dispatch of [search] is by exclusion. A trial whose status is
    [STOPPED] ends the loop and a trial whose status is [IDLE] is skipped,
    both without any further call; a trial with any other status is passed
    to [run_trial] and, when that returns, to [on_trial_end]. Only [STOPPED]
    ends the loop, and only [STOPPED] and [IDLE] keep a trial from
    [run_trial]. *)
Theorem search_dispatch_by_exclusion self s s1 t :
  impl_create_trial (oracle (base cls self)) (tuner_id (base cls self)) s = (s1, Ok t) ->
  let tid := tuner_id (base cls self) in
  let r := search_iteration json_dumps cls self s in
  (status t = STOPPED -> r = mkRun s1 [handed_out tid t] (Ok Break)) /\
  (status t = IDLE -> r = mkRun s1 [handed_out tid t] (Ok Continue)) /\
  (status t <> STOPPED -> status t <> IDLE ->
     let r1 := run_trial cls self t s1 in
     run_trial_calls (trace r) = [t] /\
     (forall e, result r1 = Raise e ->
        r = mkRun (final r1) [handed_out tid t; EMethod (M_run_trial t) (trace r1)] (Raise e)) /\
     (forall model, result r1 = Ok model ->
        let r2 := on_trial_end json_dumps cls self t model (final r1) in
        on_trial_end_calls (trace r) = [t] /\
        trace r = [handed_out tid t; EMethod (M_run_trial t) (trace r1);
                   EMethod (M_on_trial_end t) (trace r2)] /\
        final r = final r2 /\
        result r = match result r2 with Ok _ => Ok Continue | Raise e => Raise e end)) /\
  (result r = Ok Break <-> status t = STOPPED) /\
  (run_trial_calls (trace r) = [] <-> status t = STOPPED \/ status t = IDLE).
Proof.
  intros Hcreate tid r. subst r. rewrite search_iteration_run.
  cbv zeta. rewrite Hcreate. fold tid.
  repeat case_bool_decide; simpl.
  - repeat split; try done; try tauto; intros; congruence.
  - repeat split; try done; try tauto; intros; congruence.
  - destruct (result (run_trial cls self t s1)) as [model|e] eqn:Hrun; simpl.
    + split; [done|]. split; [done|]. split.
      * intros _ _. split; [done|]. split; [done|].
        intros model' [= <-]. done.
      * split; [|split; [done|tauto]].
        split; [|done]. by destruct (result (on_trial_end _ _ _ _ _ _)).
    + split; [done|]. split; [done|]. split.
      * intros _ _. split; [done|]. split; [|done]. by intros e' [= <-].
      * split; [|split; [done|tauto]]. split; done.
Qed.

(** What a pass that ends the loop tells about the Oracle, and back. *)
Lemma search_iteration_Break self s :
  result (search_iteration json_dumps cls self s) = Ok Break <->
  exists t, handed_out (tuner_id (base cls self)) t ∈ trace (search_iteration json_dumps cls self s)
            /\ status t = STOPPED.
Proof.
  rewrite search_iteration_run. cbv zeta.
  destruct (impl_create_trial _ _ s) as [s1 [t|e]]; simpl.
  2:{ split; [done|]. intros (t & Hin & _). set_unfold. unfold handed_out in Hin.
      intuition discriminate. }
  repeat case_bool_decide; simpl.
  - split; [|done]. intros _. exists t. split; [set_solver|done].
  - split; [done|]. intros (t' & Hin & Hst). set_unfold. unfold handed_out in Hin.
    destruct Hin as [[= ->]|[]]. congruence.
  - assert (forall t' l,
              handed_out (Loss:=Loss) (tuner_id (base cls self)) t'
                ∈ handed_out (tuner_id (base cls self)) t :: EMethod (M_run_trial t) l :: [] ->
              status t' = STOPPED -> False) as Hno.
    { intros t' l Hin Hst. set_unfold. unfold handed_out in Hin.
      destruct Hin as [[= ->]|[|[]]]; [congruence|discriminate]. }
    destruct (result (run_trial cls self t s1)) as [model|e]; simpl.
    + split.
      * by destruct (result (on_trial_end _ _ _ _ _ _)).
      * intros (t' & Hin & Hst). exfalso. set_unfold. unfold handed_out in Hin.
        destruct Hin as [[= ->]|[|[|[]]]]; [congruence|discriminate..].
    + split; [done|]. intros (t' & Hin & Hst). exfalso. by eapply Hno.
Qed.

(** [search] returns with a given fuel exactly when, within that fuel, the
    Oracle has handed out a trial whose status is [STOPPED]. *)
Lemma search_returns_iff_STOPPED fuel self s :
  result (search json_dumps cls fuel self s) = Ok (Some tt) <->
  exists t, handed_out (tuner_id (base cls self)) t ∈ trace (search json_dumps cls fuel self s)
            /\ status t = STOPPED.
Proof.
  revert s. induction fuel as [|fuel IH]; intros s; simpl.
  - split; [done|]. intros (t & Hin & _). by apply elem_of_nil in Hin.
  - pose proof (search_iteration_Break self s) as HB.
    unfold bind. destruct (result (search_iteration json_dumps cls self s)) as [[]|e] eqn:Hit; simpl.
    + split; [|done]. intros _. destruct HB as [(t & Hin & Hst) _]; [done|].
      exists t. split; [|done]. apply elem_of_app. by left.
    + rewrite IH. split.
      * intros (t & Hin & Hst). exists t. split; [|done]. apply elem_of_app. by right.
      * intros (t & Hin & Hst). apply elem_of_app in Hin as [Hin|Hin]; [|by eauto].
        destruct HB as [_ HB]. discriminate HB. eauto.
    + split; [done|]. intros (t & Hin & Hst).
      destruct HB as [_ HB]. discriminate HB. eauto.
Qed.

(** C2. [search] returns exactly when the Oracle, asked again and again,
    eventually hands out a trial whose status is [STOPPED]. While the
    Oracle hands out only [IDLE] and [RUNNING] trials and no step raises,
    the loop is still running after any number of passes. A pass that gets
    an [IDLE] trial makes no call but the request itself, leaves the state
    as the request left it, and the loop goes on with the next request. *)
Theorem search_terminates_iff_STOPPED self s :
  let tid := tuner_id (base cls self) in
  ((exists fuel, result (search json_dumps cls fuel self s) = Ok (Some tt)) <->
   (exists fuel t, handed_out tid t ∈ trace (search json_dumps cls fuel self s)
                   /\ status t = STOPPED)) /\
  ((forall fuel e, result (search json_dumps cls fuel self s) <> Raise e) ->
   (forall fuel t, handed_out tid t ∈ trace (search json_dumps cls fuel self s) ->
                   status t = IDLE \/ status t = RUNNING) ->
   forall fuel, result (search json_dumps cls fuel self s) = Ok None) /\
  (forall s1 t,
     impl_create_trial (oracle (base cls self)) tid s = (s1, Ok t) ->
     status t = IDLE ->
     search_iteration json_dumps cls self s = mkRun s1 [handed_out tid t] (Ok Continue) /\
     forall fuel,
       let r := search json_dumps cls (S fuel) self s in
       let r' := search json_dumps cls fuel self s1 in
       final r = final r' /\ trace r = handed_out tid t :: trace r' /\ result r = result r').
Proof.
  intros tid. split; [|split].
  - split.
    + intros (fuel & H). exists fuel. by apply search_returns_iff_STOPPED.
    + intros (fuel & t & H). exists fuel. apply search_returns_iff_STOPPED. eauto.
  - intros Hraise Honly fuel.
    destruct (result (search json_dumps cls fuel self s)) as [[[]|]|e] eqn:Hres.
    + apply search_returns_iff_STOPPED in Hres as (t & Hin & Hst).
      destruct (Honly fuel t Hin); congruence.
    + done.
    + by destruct (Hraise fuel e).
  - intros s1 t Hcreate Hidle.
    assert (search_iteration json_dumps cls self s = mkRun s1 [handed_out tid t] (Ok Continue)) as Hit.
    { rewrite search_iteration_run. cbv zeta. fold tid. rewrite Hcreate.
      rewrite Hidle. reflexivity. }
    split; [done|]. intros fuel. simpl. unfold bind. rewrite Hit. simpl. done.
Qed.
End Search.

(** A pass with a trial whose status is [COMPLETED]: it is run. *)
Lemma search_dispatch_by_exclusion_witness :
  let self := mkBaseTuner "." "p" (Double.scripted Z) 0 in
  let t := mkTrial "a" [] COMPLETED in
  let s := mkSt ∅ (Double.ostate [t] Double.stopped []) in
  let r := search_iteration Double.dumps (Double.Stub_class _ _) self s in
  run_trial_calls (trace r) = [t] /\ on_trial_end_calls (trace r) = [t].
Proof.
  intros self t s r.
  destruct (search_dispatch_by_exclusion Double.dumps (Double.Stub_class _ _) self s
              (mkSt ∅ (Double.ostate [] Double.stopped [])) t eq_refl)
    as (_ & _ & Hrun & _).
  destruct Hrun as (Hcalls & _ & Hend); [discriminate..|].
  split; [exact Hcalls|].
  by destruct (Hend None eq_refl) as (Hcalls' & _).
Defined.

(** ** The scripted Oracle and tuners whose hooks return *)

Section Scripted.
Context {Loss Self Model : Type}.
Variable json_dumps : State -> string.
Variable cls : TunerClass Double.OState Loss Self Model.
Variable self : Self.
Implicit Types (s : St Double.OState) (t : Trial).

Hypothesis oracle_scripted : oracle (base cls self) = Double.scripted Loss.

(** [run_trial] is a stub that does nothing and returns [model0]. *)
Variable model0 : Model.
Hypothesis run_trial_stub : forall t s, run_trial cls self t s = ret model0 s.

(** [save_weights] returns, and leaves the Oracle alone. *)
Hypothesis save_weights_returns : forall t m s,
  result (save_weights cls self t m s) = Ok tt /\
  ost (final (save_weights cls self t m s)) = ost s.

Lemma save_returns (b : BaseTuner Double.OState Loss) s :
  result (save json_dumps b s) = Ok tt /\ ost (final (save json_dumps b s)) = ost s.
Proof.
  rewrite save_run. simpl. split; [done|]. apply ensure_dir_ost.
Qed.

Lemma scripted_on_trial_end t m s :
  let r := on_trial_end json_dumps cls self t m s in
  result r = Ok tt /\
  Double.pending (ost (final r)) = Double.pending (ost s) /\
  Double.fallback (ost (final r)) = Double.fallback (ost s).
Proof.
  unfold on_trial_end, Oracle_end_trial, Oracle_update_space, Display_on_trial_end,
    bind, call, method.
  rewrite oracle_scripted. cbn -[save].
  set (s1 := mkSt _ _).
  destruct (save_weights_returns t m s1) as [Hres Host]. rewrite Hres. cbn -[save].
  set (s2 := mkSt _ _).
  destruct (save_returns (base cls self) s2) as [Hres' Host']. rewrite Hres'.
  split; [done|]. rewrite Host'. subst s2. simpl. rewrite Host. done.
Qed.

(** A pass in which the Oracle hands out a trial that is to be run. *)
Lemma scripted_pass s t s1 :
  impl_create_trial (Double.scripted Loss) (tuner_id (base cls self)) s = (s1, Ok t) ->
  status t <> STOPPED -> status t <> IDLE ->
  let r := search_iteration json_dumps cls self s in
  result r = Ok Continue /\
  on_trial_end_calls (trace r) = [t] /\
  run_trial_calls (trace r) = [t] /\
  (forall t', handed_out (tuner_id (base cls self)) t' ∈ trace r -> t' = t) /\
  handed_out_trials (trace r) = [t] /\
  Double.pending (ost (final r)) = Double.pending (ost s1) /\
  Double.fallback (ost (final r)) = Double.fallback (ost s1).
Proof.
  intros Hcreate Hns Hni r. subst r.
  rewrite <- oracle_scripted in Hcreate.
  rewrite search_iteration_run. cbv zeta. rewrite Hcreate.
  rewrite !bool_decide_false by done.
  rewrite run_trial_stub. unfold ret. cbn [result final trace].
  destruct (scripted_on_trial_end t model0 s1) as (Hok & Hp & Hf).
  rewrite Hok. cbn [result final trace].
  split; [done|]. split; [done|]. split; [done|]. split; [|split; [done|done]].
  intros t' Hin. set_unfold. unfold handed_out in Hin.
  destruct Hin as [[= ->]|[|[|[]]]]; [done|discriminate..].
Qed.

Lemma search_Continue fuel s :
  result (search_iteration json_dumps cls self s) = Ok Continue ->
  let it := search_iteration json_dumps cls self s in
  let r := search json_dumps cls fuel self (final it) in
  search json_dumps cls (S fuel) self s =
  mkRun (final r) (trace it ++ trace r) (result r).
Proof. intros H. simpl. unfold bind. by rewrite H. Qed.

(** The Oracle hands out the trials of its script, none of them [STOPPED]
    or [IDLE], and then a [STOPPED] trial: [search] runs each trial of the
    script, in order, and returns. *)
Lemma scripted_search script : forall s fuel,
  Forall (fun t => status t <> STOPPED /\ status t <> IDLE) script ->
  Double.pending (ost s) = script ->
  status (Double.fallback (ost s)) = STOPPED ->
  (length script < fuel)%nat ->
  let r := search json_dumps cls fuel self s in
  result r = Ok (Some tt) /\
  on_trial_end_calls (trace r) = script /\
  run_trial_calls (trace r) = script /\
  handed_out_trials (trace r) = (script ++ [Double.fallback (ost s)])%list.
Proof.
  induction script as [|t rest IH]; intros s fuel Hrun Hpend Hlast Hfuel.
  - destruct fuel as [|fuel]; [simpl in Hfuel; lia|]. simpl.
    unfold bind. rewrite search_iteration_run. cbv zeta.
    rewrite oracle_scripted. simpl. unfold Double.scripted_create_trial.
    rewrite Hpend, Hlast. simpl. done.
  - destruct fuel as [|fuel]; [simpl in Hfuel; lia|].
    apply Forall_cons in Hrun as [[Hns Hni] Hrun].
    set (s1 := mkSt (fs s) (Double.mkOState rest (Double.fallback (ost s))
                 (Double.ranked (ost s)) (Double.space (ost s)) (Double.ended (ost s)))).
    assert (impl_create_trial (Double.scripted Loss) (tuner_id (base cls self)) s = (s1, Ok t))
      as Hcreate.
    { simpl. unfold Double.scripted_create_trial. by rewrite Hpend. }
    destruct (scripted_pass s t s1 Hcreate Hns Hni) as (Hres & Hend & Hcalls & _ & Hout & Hp & Hf).
    rewrite (search_Continue fuel s Hres). simpl.
    destruct (IH (final (search_iteration json_dumps cls self s)) fuel Hrun)
      as (Hres' & Hend' & Hcalls' & Hout').
    { by rewrite Hp. } { by rewrite Hf. } { simpl in Hfuel. lia. }
    split; [done|].
    unfold on_trial_end_calls, run_trial_calls, handed_out_trials in *.
    rewrite !omap_app, Hend, Hcalls, Hout, Hend', Hcalls', Hout', Hf. done.
Qed.

(** The Oracle hands out the same [RUNNING] trial for ever: [search] is
    still running after any number of passes. *)
Lemma scripted_forever : forall fuel s,
  Double.pending (ost s) = [] ->
  status (Double.fallback (ost s)) = RUNNING ->
  let r := search json_dumps cls fuel self s in
  result r = Ok None /\
  forall t, handed_out (tuner_id (base cls self)) t ∈ trace r -> t = Double.fallback (ost s).
Proof.
  induction fuel as [|fuel IH]; intros s Hpend Hlast; simpl.
  - split; [done|]. intros t Hin. by apply elem_of_nil in Hin.
  - assert (impl_create_trial (Double.scripted Loss) (tuner_id (base cls self)) s
            = (s, Ok (Double.fallback (ost s)))) as Hcreate.
    { simpl. unfold Double.scripted_create_trial. by rewrite Hpend. }
    destruct (scripted_pass s _ s Hcreate) as (Hres & _ & _ & Hin & _ & Hp & Hf);
      [by rewrite Hlast..|].
    pose proof (search_Continue fuel s Hres) as Hs. simpl in Hs. rewrite Hs. simpl.
    destruct (IH (final (search_iteration json_dumps cls self s))) as (Hres' & Hin').
    { by rewrite Hp. } { by rewrite Hf. }
    split; [done|]. intros t Ht. apply elem_of_app in Ht as [Ht|Ht].
    + by apply Hin.
    + rewrite <- Hf. by apply Hin'.
Qed.

(** C6, as the code has it. For an Oracle that yields three [RUNNING]
    trials and then a [STOPPED] one, [search] on a tuner whose [run_trial]
    is a stub that does nothing and whose [save_weights] returns and leaves
    the Oracle alone calls [on_trial_end] exactly three times, once for
    each [RUNNING] trial and in their order, and then returns. *)
Theorem search_three_running_then_stopped
    (id1 id2 id3 : string) (hp1 hp2 hp3 : HyperParameters)
    (last : Trial) (best : list Trial) (fs0 : FS) (fuel : nat) :
  status last = STOPPED ->
  (4 <= fuel)%nat ->
  let script := [Double.running id1 hp1; Double.running id2 hp2; Double.running id3 hp3] in
  let r := search json_dumps cls fuel self (mkSt fs0 (Double.ostate script last best)) in
  result r = Ok (Some tt) /\
  on_trial_end_calls (trace r) = script /\
  run_trial_calls (trace r) = script /\
  handed_out_trials (trace r) = (script ++ [last])%list.
Proof.
  intros Hlast Hfuel script r.
  apply (scripted_search script); try done.
  repeat constructor; discriminate.
Qed.
End Scripted.

(** The stub tuner on three [RUNNING] trials and a [STOPPED] one. *)
Lemma search_three_running_then_stopped_witness :
  let self := mkBaseTuner "." "p" (Double.scripted Z) 0 in
  let script := [Double.running "a" []; Double.running "b" [("units", 8)];
                 Double.running "c" [("units", 16)]] in
  let r := search Double.dumps (Double.Stub_class _ _) 4 self
                  (mkSt ∅ (Double.ostate script Double.stopped [])) in
  result r = Ok (Some tt) /\
  on_trial_end_calls (trace r) = script /\
  run_trial_calls (trace r) = script /\
  handed_out_trials (trace r) = (script ++ [Double.stopped])%list.
Proof.
  intros self script r.
  apply (search_three_running_then_stopped Double.dumps (Double.Stub_class _ _) self
           eq_refl None (fun _ _ => eq_refl) (fun _ _ _ => conj eq_refl eq_refl)).
  - reflexivity.
  - lia.
Defined.

(** A tuner that overrides [run_trial] alone, on the same Oracle:
    [on_trial_end] is called once, its [save_weights] raises, and [search]
    ends with [NotImplementedError] instead of returning. The Oracle has
    handed out one trial only. *)
Lemma search_three_running_then_stopped_counterexample :
  let self := mkBaseTuner "." "p" (Double.scripted Z) 0 in
  let script := [Double.running "a" []; Double.running "b" [("units", 8)];
                 Double.running "c" [("units", 16)]] in
  let r := search Double.dumps (Double.RunOnly_class _ _) 4 self
                  (mkSt ∅ (Double.ostate script Double.stopped [])) in
  result r = Raise NotImplementedError /\
  result r <> Ok (Some tt) /\
  on_trial_end_calls (trace r) = [Double.running "a" []] /\
  on_trial_end_calls (trace r) <> script /\
  handed_out_trials (trace r) = [Double.running "a" []].
Proof. vm_compute. repeat split; discriminate. Qed.

(** The stub tuner on an Oracle that hands out a [RUNNING] trial for ever:
    after ten passes the loop is still running. *)
Lemma search_terminates_iff_STOPPED_witness :
  let self := mkBaseTuner "." "p" (Double.scripted Z) 0 in
  let s := mkSt ∅ (Double.ostate [] (Double.running "a" []) []) in
  result (search Double.dumps (Double.Stub_class _ _) 10 self s) = Ok None.
Proof.
  intros self s.
  destruct (search_terminates_iff_STOPPED Double.dumps (Double.Stub_class _ _) self s)
    as (_ & Hloop & _).
  pose proof (fun fuel =>
    scripted_forever Double.dumps (Double.Stub_class _ _) self eq_refl None
      (fun _ _ => eq_refl) (fun _ _ _ => conj eq_refl eq_refl) fuel s eq_refl eq_refl)
    as Hforever.
  apply Hloop.
  - intros fuel e. destruct (Hforever fuel) as [-> _]. discriminate.
  - intros fuel t Hin. right. destruct (Hforever fuel) as [_ Hall].
    by rewrite (Hall t Hin).
Defined.

(** ** The best models *)

Section BestModels.
Context {O Loss Self Model : Type}.
Variable cls : TunerClass O Loss Self Model.
Implicit Types (s : St O) (self : Self) (t : Trial).

(** The comprehension calls [load_model] on the trials in their order, and
    stops at the first call that raises. *)
Lemma comprehension_load_model self (ts : list Trial) : forall s,
  let r := comprehension
             (fun t => method (M_load_model t) (load_model cls self t)) ts s in
  load_model_calls (trace r) `prefix_of` ts /\
  forall models, result r = Ok models ->
    load_model_calls (trace r) = ts /\
    Forall2 (fun t m => exists sa, result (load_model cls self t sa) = Ok m) ts models.
Proof.
  induction ts as [|t ts IH]; intros s; simpl.
  - split; [done|]. intros models [= <-]. done.
  - specialize (IH (final (load_model cls self t s))).
    unfold bind, method in *. simpl in *.
    destruct (result (load_model cls self t s)) as [m|e] eqn:Hload; simpl.
    2:{ split; [by exists ts|done]. }
    destruct IH as [Hpre Hok].
    destruct (result (comprehension _ ts _)) as [ms|e] eqn:Hrest; simpl.
    + rewrite app_nil_r. destruct (Hok ms eq_refl) as [Hcalls Hall].
      split.
      * by apply prefix_cons.
      * intros models [= <-]. split; [by rewrite Hcalls|].
        constructor; [by exists s|done].
    + split; [|done]. by apply prefix_cons.
Qed.

(** When [load_model] is a function of the trial, the comprehension maps it. *)
Lemma comprehension_map self (g : Trial -> Model) (ts : list Trial) : forall s,
  (forall t s', load_model cls self t s' = ret (g t) s') ->
  result (comprehension
            (fun t => method (M_load_model t) (load_model cls self t)) ts s)
  = Ok (map g ts).
Proof.
  intros s Hg. revert s. induction ts as [|t ts IH]; intros s; simpl; [done|].
  specialize (IH s). unfold bind, method in *. rewrite Hg. simpl in *.
  by rewrite IH.
Qed.

(** C7. [get_best_models(n)] returns the models that [load_model] gives for
    the trials of [Oracle.get_best_trials(n)], one for each trial and in the
    Oracle's order: [load_model] is called on the trials in that order, the
    i-th model is what it returned for the i-th trial, and there are as
    many models as trials ([n], or fewer when the Oracle has fewer). *)
Theorem get_best_models_ranked_order self (n : nat) s s1 (ts : list Trial) :
  impl_get_best_trials (oracle (base cls self)) n s = (s1, Ok ts) ->
  let r := get_best_models cls self n s in
  load_model_calls (trace r) `prefix_of` ts /\
  (forall models, result r = Ok models ->
     length models = length ts /\
     load_model_calls (trace r) = ts /\
     Forall2 (fun t m => exists sa, result (load_model cls self t sa) = Ok m) ts models /\
     (forall k, length ts = Nat.min n k -> length models = Nat.min n k)) /\
  (forall g : Trial -> Model,
     (forall t s', load_model cls self t s' = ret (g t) s') ->
     result r = Ok (map g ts)).
Proof.
  intros Hbest r. subst r.
  unfold get_best_models, Oracle_get_best_trials, bind, call.
  rewrite Hbest. simpl.
  destruct (comprehension_load_model self ts s1) as [Hpre Hok]. simpl in Hpre, Hok.
  unfold bind in *.
  split; [done|]. split.
  - intros models Hres. destruct (Hok models Hres) as [Hcalls Hall].
    pose proof (Forall2_length _ _ _ Hall) as Hlen.
    split; [done|]. split; [done|]. split; [done|]. intros k Hk. congruence.
  - intros g Hg. by apply comprehension_map.
Qed.
End BestModels.

(** The stub tuner on an Oracle that ranks two trials, asked for five. *)
Lemma get_best_models_ranked_order_witness :
  let self := mkBaseTuner "." "p" (Double.scripted Z) 0 in
  let best := [Double.running "b" []; Double.running "a" []] in
  let s := mkSt ∅ (Double.ostate [] Double.stopped best) in
  result (get_best_models (Double.Stub_class _ _) self 5 s) = Ok [Some "b"; Some "a"].
Proof.
  intros self best s.
  destruct (get_best_models_ranked_order (Double.Stub_class _ _) self 5 s s best eq_refl)
    as (_ & _ & Hmap).
  apply (Hmap (fun t => Some (trial_id t))). reflexivity.
Defined.

(** ** Construction *)

Section Construction.
Context {O Loss : Type}.
Variable json_loads : string -> option State.
Implicit Types (s : St O) (d p : option string) (tid : option Z).

(** With [overwrite=False], a wrong [oracle] argument is refused before
    anything else happens. *)
Lemma init_not_an_oracle_keep repr d p tid s :
  BaseTuner_init (Loss:=Loss) json_loads (NotAnOracle repr) d p tid false s
  = mkRun s [] (Raise (not_an_oracle_error repr)).
Proof. reflexivity. Qed.

(** The first statement of [__init__] with [overwrite=True]: the directory
    is made, found, made again, and removed. *)
Lemma init_remove_project_true (d' p' : string) s :
  let root := os_path_join d' p' in
  init_remove_project (Loss:=Loss) d' p' true s
  = after [EFs (Op_create_directory root); EFs (Op_exists root);
           EFs (Op_create_directory root)]
          (shutil_rmtree root (ensure_dir root s)).
Proof.
  intros root. unfold init_remove_project.
  erewrite bind_step by apply project_dir_run. fold root.
  erewrite bind_step by reflexivity.
  rewrite bool_decide_true by apply ensure_dir_lookup.
  erewrite bind_step by apply project_dir_run. fold root.
  rewrite ensure_dir_again, !after_after. done.
Qed.

Lemma shutil_rmtree_run (root : string) s :
  fs_ops (trace (shutil_rmtree (Loss:=Loss) root s)) = [Op_rmtree root] /\
  Forall (fun e => is_fs_op e = true) (trace (shutil_rmtree (Loss:=Loss) root s)) /\
  ost (final (shutil_rmtree (Loss:=Loss) root s)) = ost s /\
  ((forall content, fs s !! root <> Some (File content)) -> is_Some (fs s !! root) ->
   result (shutil_rmtree (Loss:=Loss) root s) = Ok tt /\
   forall q, q = root \/ inside root q = true ->
             fs (final (shutil_rmtree (Loss:=Loss) root s)) !! q = None).
Proof.
  unfold shutil_rmtree.
  destruct (fs s !! root) as [[|content]|] eqn:Hroot; simpl.
  - split; [done|]. split; [by repeat constructor|]. split; [done|].
    intros _ _. split; [done|].
    intros q Hq. apply map_lookup_filter_None. right. intros node _ [Hne Hin]. simpl in *.
    destruct Hq as [->|Hq]; [done|congruence].
  - split; [done|]. split; [by repeat constructor|]. split; [done|].
    intros Hfile. by destruct (Hfile content).
  - split; [done|]. split; [by repeat constructor|]. split; [done|].
    intros _ [node Hnode]. done.
Qed.

(** With [overwrite=True], the project directory is created and removed
    before the [oracle] argument is looked at. *)
Lemma init_not_an_oracle_overwrite repr d p tid s :
  let root := project_root d p in
  let r := BaseTuner_init (Loss:=Loss) json_loads (NotAnOracle repr) d p tid true s in
  fs_ops (trace r) = [Op_create_directory root; Op_exists root;
                      Op_create_directory root; Op_rmtree root] /\
  ((forall content, fs s !! root <> Some (File content)) ->
   result r = Raise (not_an_oracle_error repr) /\
   forall q, q = root \/ inside root q = true -> fs (final r) !! q = None).
Proof.
  intros root r. subst r. unfold BaseTuner_init.
  fold (project_root d p). fold root.
  pose proof (init_remove_project_true (or_default d ".") (or_default p "untitled_project") s)
    as Hrm.
  fold (project_root d p) in Hrm. fold root in Hrm. cbv zeta in Hrm.
  destruct (shutil_rmtree_run root (ensure_dir root s)) as (Hops & _ & _ & Hok).
  unfold bind. rewrite Hrm. unfold after. simpl.
  destruct (result (shutil_rmtree root (ensure_dir root s))) as [[]|e] eqn:Hres; simpl.
  - rewrite app_nil_r. split.
    + unfold fs_ops in *. simpl. by rewrite Hops.
    + intros Hfile. split; [done|]. apply Hok; [|apply ensure_dir_lookup].
      intros content Hc. unfold ensure_dir in Hc.
      destruct (fs s !! root) as [node|] eqn:Hroot.
      * rewrite Hroot in Hc. by destruct (Hfile content).
      * simpl in Hc. by rewrite lookup_insert_eq in Hc.
  - split.
    + unfold fs_ops in *. simpl. by rewrite Hops.
    + intros Hfile. exfalso. destruct Hok as [Hok _]; [|apply ensure_dir_lookup|congruence].
      intros content Hc. unfold ensure_dir in Hc.
      destruct (fs s !! root) as [node|] eqn:Hroot.
      * rewrite Hroot in Hc. by destruct (Hfile content).
      * simpl in Hc. by rewrite lookup_insert_eq in Hc.
Qed.

Lemma init_remove_project_run (d' p' : string) (ow : bool) s :
  let r := init_remove_project (Loss:=Loss) d' p' ow s in
  Forall (fun e => is_fs_op e = true) (trace r) /\
  ost (final r) = ost s /\
  (ow = false -> r = mkRun s [] (Ok tt)) /\
  (ow = true -> exists rest, fs_ops (trace r) = Op_create_directory (os_path_join d' p') :: rest).
Proof.
  destruct ow; [|by repeat split].
  intros r. subst r. rewrite init_remove_project_true. unfold after. simpl.
  destruct (shutil_rmtree_run (os_path_join d' p') (ensure_dir (os_path_join d' p') s))
    as (_ & Hfs & Host & _).
  split; [by repeat constructor|]. split; [by rewrite Host, ensure_dir_ost|].
  split; [done|]. intros _. by eexists.
Qed.

(** [reload], when the file is read and decoded or not. *)
Lemma reload_run (self : BaseTuner O Loss) s :
  let root := os_path_join (directory self) (project_name self) in
  let fname := os_path_join root ("tuner_" +:+ str (tuner_id self) +:+ ".json") in
  let s1 := ensure_dir root s in
  reload json_loads self s
  = mkRun s1
      (match fs s1 !! fname with
       | Some (File content) =>
           match json_loads content with
           | Some state => [EFs (Op_create_directory root); EFs (Op_read fname);
                            EMethod (M_set_state state) []]
           | None => [EFs (Op_create_directory root); EFs (Op_read fname)]
           end
       | _ => [EFs (Op_create_directory root); EFs (Op_read fname)]
       end)
      (match fs s1 !! fname with
       | Some (File content) =>
           match json_loads content with
           | Some state => Ok tt
           | None => Raise (ValueError "Expecting value")
           end
       | _ => Raise (OSError fname)
       end).
Proof.
  intros root fname s1. unfold reload.
  erewrite bind_step by apply _get_tuner_fname_run. fold root fname s1.
  unfold Stateful_reload, read_file, bind, after. simpl.
  destruct (fs s1 !! fname) as [[|content]|]; simpl; try done.
  destruct (json_loads content); done.
Qed.

(** The last statement of [__init__] with [overwrite=False]. *)
Lemma init_reload_false (self : BaseTuner O Loss) s :
  let root := os_path_join (directory self) (project_name self) in
  let fname := os_path_join root ("tuner_" +:+ str (tuner_id self) +:+ ".json") in
  let s1 := ensure_dir root s in
  init_reload json_loads self false s
  = after [EFs (Op_create_directory root); EFs (Op_exists fname)]
      (if bool_decide (is_Some (fs s1 !! fname))
       then after [EFs (Op_create_directory root)]
                  (method M_reload (reload json_loads self) s1)
       else mkRun s1 [] (Ok tt)).
Proof.
  intros root fname s1. unfold init_reload. simpl.
  erewrite bind_step by apply _get_tuner_fname_run. fold root fname s1.
  erewrite bind_step by reflexivity. rewrite after_after. simpl.
  case_bool_decide; [|done].
  erewrite bind_step by apply _get_tuner_fname_run. fold root.
  subst s1. by rewrite ensure_dir_again.
Qed.

Lemma init_reload_run (self : BaseTuner O Loss) (ow : bool) s :
  let r := init_reload json_loads self ow s in
  oracle_calls (trace r) = [] /\
  ost (final r) = ost s /\
  (ow = true -> r = mkRun s [] (Ok tt)) /\
  (ow = false -> exists rest,
     fs_ops (trace r)
     = Op_create_directory (os_path_join (directory self) (project_name self)) :: rest).
Proof.
  destruct ow; [by repeat split|].
  intros r. subst r. rewrite init_reload_false.
  set (root := os_path_join (directory self) (project_name self)).
  set (fname := os_path_join root _).
  case_bool_decide.
  - rewrite after_after, method_run, reload_run. fold root fname.
    rewrite ensure_dir_again. unfold after. simpl.
    split; [|split; [apply ensure_dir_ost|split; [done|intros _; by eexists]]].
    destruct (fs (ensure_dir root s) !! fname) as [[|content]|]; try done.
    by destruct (json_loads content).
  - unfold after. simpl. split; [done|]. split; [apply ensure_dir_ost|].
    split; [done|]. intros _. by eexists.
Qed.

(** [__init__], case by case. *)
Lemma BaseTuner_init_run (oarg : OracleArg O Loss) d p tid (ow : bool) s :
  BaseTuner_init json_loads oarg d p tid ow s =
  let d' := or_default d "." in
  let p' := or_default p "untitled_project" in
  let r0 := init_remove_project (Loss:=Loss) d' p' ow s in
  match result r0 with
  | Raise e => mkRun (final r0) (trace r0) (Raise e)
  | Ok _ =>
      match oarg with
      | NotAnOracle repr => mkRun (final r0) (trace r0) (Raise (not_an_oracle_error repr))
      | AnOracle o =>
          let e1 := EOracle (Call_set_project_dir d' p' ow) in
          let '(s1, a1) := impl_set_project_dir o d' p' ow (final r0) in
          match a1 with
          | Raise e => mkRun s1 (trace r0 ++ [e1]) (Raise e)
          | Ok _ =>
              let '(s2, a2) := impl_get_space o s1 in
              match a2 with
              | Raise e => mkRun s2 (trace r0 ++ [e1; EOracle (Call_get_space None)]) (Raise e)
              | Ok hp =>
                  let e2 := EOracle (Call_get_space (Some hp)) in
                  let e3 := EOracle (Call_update_space hp) in
                  let '(s3, a3) := impl_update_space o hp s2 in
                  match a3 with
                  | Raise e => mkRun s3 (trace r0 ++ [e1; e2; e3]) (Raise e)
                  | Ok _ =>
                      let self := mkBaseTuner d' p' o
                                    (match tid with Some i => i | None => 0 end) in
                      let r4 := init_reload json_loads self ow s3 in
                      mkRun (final r4) (trace r0 ++ [e1; e2; e3] ++ trace r4)
                            (match result r4 with
                             | Ok _ => Ok self
                             | Raise e => Raise e
                             end)
                  end
              end
          end
      end
  end.
Proof.
  unfold BaseTuner_init. cbv zeta.
  set (d' := or_default d "."). set (p' := or_default p "untitled_project").
  unfold bind at 1.
  destruct (result (init_remove_project d' p' ow s)) as [[]|e0]; [|done].
  destruct oarg as [o|repr]; [|unfold raise; simpl; by rewrite app_nil_r].
  unfold Oracle_set_project_dir, Oracle_get_space, Oracle_update_space, bind, call, ret.
  destruct (impl_set_project_dir o d' p' ow _) as [s1 [[]|e1]]; simpl; [|done].
  destruct (impl_get_space o s1) as [s2 [hp|e2]]; simpl; [|done].
  destruct (impl_update_space o hp s2) as [s3 [[]|e3]]; simpl; [|done].
  destruct (result (init_reload json_loads _ ow s3)) as [[]|e4]; simpl;
    by rewrite ?app_nil_r.
Qed.

Lemma fs_events_no_oracle_calls (l : list (Event Loss)) :
  Forall (fun e => is_fs_op e = true) l -> oracle_calls l = [].
Proof.
  induction 1 as [|e l He _ IH]; [done|]. unfold oracle_calls in *. simpl.
  rewrite IH. by destruct e.
Qed.

(** [__init__] on an Oracle whose [set_project_dir] and [get_space] return. *)
Lemma BaseTuner_init_steps (o : Oracle O Loss) d p tid (ow : bool) s s1 s2 s3 hp a3 :
  let d' := or_default d "." in
  let p' := or_default p "untitled_project" in
  let self := mkBaseTuner d' p' o (match tid with Some i => i | None => 0 end) in
  let r0 := init_remove_project (Loss:=Loss) d' p' ow s in
  let r4 := init_reload json_loads self ow s3 in
  let calls := [EOracle (Call_set_project_dir d' p' ow);
                EOracle (Call_get_space (Some hp));
                EOracle (Call_update_space hp)] in
  result r0 = Ok tt ->
  impl_set_project_dir o d' p' ow (final r0) = (s1, Ok tt) ->
  impl_get_space o s1 = (s2, Ok hp) ->
  impl_update_space o hp s2 = (s3, a3) ->
  BaseTuner_init json_loads (AnOracle o) d p tid ow s
  = match a3 with
    | Raise e => mkRun s3 (trace r0 ++ calls) (Raise e)
    | Ok _ => mkRun (final r4) (trace r0 ++ calls ++ trace r4)
                (match result r4 with Ok _ => Ok self | Raise e => Raise e end)
    end.
Proof.
  intros d' p' self r0 r4 calls H0 H1 H2 H3.
  rewrite BaseTuner_init_run. cbv zeta. fold d' p' r0. rewrite H0, H1, H2, H3.
  by destruct a3.
Qed.

(** C10. Constructing a [BaseTuner] on an Oracle, whatever [overwrite] is:
    once [set_project_dir] has returned, [oracle.get_space()] is called,
    and [oracle.update_space] is then called on the space it returned, in
    the state it left, each exactly once. These and [set_project_dir] are
    all the Oracle calls of the construction, also when [update_space] or
    the reload then raises, and the Oracle is left as [update_space] left
    it. Before them there are only file-system operations, which leave the
    Oracle alone; a reload of the tuner state comes only after them, and
    only with [overwrite=False]; and when the [oracle] argument is not an
    Oracle, no Oracle call is made at all. *)
Theorem init_populates_space (o : Oracle O Loss) d p tid (ow : bool) s s1 s2 s3 hp a3 :
  let d' := or_default d "." in
  let p' := or_default p "untitled_project" in
  let self := mkBaseTuner d' p' o (match tid with Some i => i | None => 0 end) in
  let r0 := init_remove_project (Loss:=Loss) d' p' ow s in
  let r4 := init_reload json_loads self ow s3 in
  let r := BaseTuner_init json_loads (AnOracle o) d p tid ow s in
  let calls := [Call_set_project_dir d' p' ow; Call_get_space (Some hp);
                Call_update_space hp] in
  result r0 = Ok tt ->
  impl_set_project_dir o d' p' ow (final r0) = (s1, Ok tt) ->
  impl_get_space o s1 = (s2, Ok hp) ->
  impl_update_space o hp s2 = (s3, a3) ->
  r = match a3 with
      | Raise e => mkRun s3 (trace r0 ++ map EOracle calls) (Raise e)
      | Ok _ => mkRun (final r4) (trace r0 ++ map EOracle calls ++ trace r4)
                  (match result r4 with Ok _ => Ok self | Raise e => Raise e end)
      end /\
  oracle_calls (trace r) = calls /\
  ost (final r) = ost s3 /\
  Forall (fun e => is_fs_op e = true) (trace r0) /\
  ost (final r0) = ost s /\
  oracle_calls (trace r4) = [] /\
  (forall inner, EMethod M_reload inner ∈ trace r ->
     EMethod M_reload inner ∈ trace r4 /\ a3 = Ok tt /\ ow = false) /\
  (forall repr,
     oracle_calls (trace (BaseTuner_init (Loss:=Loss) json_loads (NotAnOracle repr)
                            d p tid ow s)) = []).
Proof.
  intros d' p' self r0 r4 r calls H0 H1 H2 H3.
  pose proof (BaseTuner_init_steps o d p tid ow s s1 s2 s3 hp a3 H0 H1 H2 H3) as Hrun.
  cbv zeta in Hrun. fold d' p' self r0 r4 r in Hrun.
  destruct (init_remove_project_run d' p' ow s) as (Hpre & Host0 & _).
  fold r0 in Hpre, Host0.
  destruct (init_reload_run self ow s3) as (Hpost & Host4 & Htrue & _).
  fold r4 in Hpost, Host4, Htrue.
  pose proof (fs_events_no_oracle_calls _ Hpre) as Hnone.
  split; [exact Hrun|]. split; [|split; [|split; [done|split; [done|split; [done|split]]]]].
  - rewrite Hrun. unfold oracle_calls in *.
    destruct a3; cbn [trace]; rewrite !flat_map_app, Hnone, ?Hpost; done.
  - rewrite Hrun. by destruct a3.
  - intros inner Hin. rewrite Hrun in Hin.
    assert (EMethod M_reload inner ∉ trace r0) as Hnot0.
    { intros Hin0. rewrite Forall_forall in Hpre. by specialize (Hpre _ Hin0). }
    assert (EMethod M_reload inner ∉ map EOracle calls) as Hnotc.
    { subst calls. set_unfold. intros (x & Hx & _). discriminate. }
    destruct a3 as [[]|e]; cbn [trace] in Hin.
    + rewrite !elem_of_app in Hin. destruct Hin as [Hin|[Hin|Hin]]; [done|done|].
      split; [done|]. split; [done|].
      destruct ow; [|done]. rewrite (Htrue eq_refl) in Hin. by apply elem_of_nil in Hin.
    + rewrite elem_of_app in Hin. by destruct Hin.
  - intros repr. rewrite BaseTuner_init_run. cbv zeta. fold d' p' r0. by rewrite H0.
Qed.

(** A construction that succeeds, step by step. *)
Lemma BaseTuner_init_Ok (oarg : OracleArg O Loss) d p tid (ow : bool) s self :
  let d' := or_default d "." in
  let p' := or_default p "untitled_project" in
  let r := BaseTuner_init json_loads oarg d p tid ow s in
  result r = Ok self ->
  exists o hp s1 s2 s3,
    let r0 := init_remove_project (Loss:=Loss) d' p' ow s in
    let r4 := init_reload json_loads self ow s3 in
    oarg = AnOracle o /\
    self = mkBaseTuner d' p' o (match tid with Some i => i | None => 0 end) /\
    result r0 = Ok tt /\
    impl_set_project_dir o d' p' ow (final r0) = (s1, Ok tt) /\
    impl_get_space o s1 = (s2, Ok hp) /\
    impl_update_space o hp s2 = (s3, Ok tt) /\
    result r4 = Ok tt /\
    final r = final r4 /\
    trace r = (trace r0 ++
               [EOracle (Call_set_project_dir d' p' ow);
                EOracle (Call_get_space (Some hp));
                EOracle (Call_update_space hp)] ++ trace r4)%list.
Proof.
  intros d' p' r. subst r. rewrite BaseTuner_init_run. cbv zeta. fold d' p'.
  destruct (result (init_remove_project d' p' ow s)) as [[]|e0] eqn:Hres0; simpl; [|done].
  destruct oarg as [o|repr]; simpl; [|done].
  destruct (impl_set_project_dir o d' p' ow _) as [s1 [[]|e1]] eqn:H1; simpl; [|done].
  destruct (impl_get_space o s1) as [s2 [hp|e2]] eqn:H2; simpl; [|done].
  destruct (impl_update_space o hp s2) as [s3 [[]|e3]] eqn:H3; simpl; [|done].
  destruct (result (init_reload json_loads _ ow s3)) as [[]|e4] eqn:H4; simpl; [|done].
  intros [= <-]. exists o, hp, s1, s2, s3. simpl. by repeat split.
Qed.

(** [PipeTuner.__init__] looks at [model] after [BaseTuner.__init__] has run. *)
Lemma PipeTuner_init_not_a_recommender {Pipe Cfg Data : Type}
    (oarg : OracleArg O Loss) d p tid (ow : bool) s :
  let b := BaseTuner_init json_loads oarg d p tid ow s in
  let r := PipeTuner_init (Pipe:=Pipe) (Cfg:=Cfg) (Data:=Data) json_loads oarg
             NotARecommender d p tid ow s in
  final r = final b /\
  trace r = trace b /\
  result r = match result b with
             | Ok _ => Raise (TypeError
                 "PipeTuner.model must be an instance of CFRecommender or CTRRecommender!")
             | Raise e => Raise e
             end.
Proof.
  unfold PipeTuner_init, bind, raise. simpl.
  destruct (result (BaseTuner_init json_loads oarg d p tid ow s)); simpl;
    rewrite ?app_nil_r; done.
Qed.

Lemma fs_ops_app (l1 l2 : list (Event Loss)) :
  fs_ops (l1 ++ l2) = (fs_ops l1 ++ fs_ops l2)%list.
Proof. unfold fs_ops. apply flat_map_app. Qed.

(** A construction that succeeds has created the project directory. *)
Lemma BaseTuner_init_touches (oarg : OracleArg O Loss) d p tid (ow : bool) s self :
  let r := BaseTuner_init json_loads oarg d p tid ow s in
  result r = Ok self ->
  Op_create_directory (project_root d p) ∈ fs_ops (trace r).
Proof.
  intros r Hres.
  destruct (BaseTuner_init_Ok oarg d p tid ow s self Hres)
    as (o & hp & s1 & s2 & s3 & _ & Hself & _ & _ & _ & _ & _ & _ & Htrace).
  fold r in Htrace. rewrite Htrace, !fs_ops_app.
  destruct ow.
  - destruct (init_remove_project_run (or_default d ".") (or_default p "untitled_project")
                true s) as (_ & _ & _ & Hfirst).
    destruct (Hfirst eq_refl) as [rest ->]. set_solver.
  - destruct (init_reload_run self false s3) as (_ & _ & _ & Hfirst).
    destruct (Hfirst eq_refl) as [rest ->]. rewrite Hself. simpl.
    unfold project_root. set_solver.
Qed.

(** With [overwrite=True] and a regular file at the path of the project:
    [shutil.rmtree] raises, whatever the [oracle] argument is. *)
Lemma init_overwrite_on_file (oarg : OracleArg O Loss) d p tid s content :
  let root := project_root d p in
  fs s !! root = Some (File content) ->
  BaseTuner_init json_loads oarg d p tid true s
  = mkRun s [EFs (Op_create_directory root); EFs (Op_exists root);
             EFs (Op_create_directory root); EFs (Op_rmtree root)]
          (Raise (OSError root)).
Proof.
  intros root Hfile. rewrite BaseTuner_init_run. cbv zeta.
  rewrite init_remove_project_true. cbv zeta.
  change (os_path_join (or_default d ".") (or_default p "untitled_project")) with root.
  rewrite (ensure_dir_kept root s _ Hfile).
  unfold shutil_rmtree, after. rewrite Hfile. reflexivity.
Qed.

(** The events of a refused [oracle] argument with [overwrite=True]. *)
Lemma init_not_an_oracle_overwrite_trace repr d p tid s :
  let root := project_root d p in
  trace (BaseTuner_init (Loss:=Loss) json_loads (NotAnOracle repr) d p tid true s)
  = [EFs (Op_create_directory root); EFs (Op_exists root);
     EFs (Op_create_directory root); EFs (Op_rmtree root)].
Proof.
  intros root. rewrite BaseTuner_init_run. cbv zeta.
  rewrite init_remove_project_true. cbv zeta.
  change (os_path_join (or_default d ".") (or_default p "untitled_project")) with root.
  assert (trace (shutil_rmtree (Loss:=Loss) root (ensure_dir root s)) = [EFs (Op_rmtree root)])
    as Hrm.
  { unfold shutil_rmtree. by destruct (fs (ensure_dir root s) !! root) as [[|content]|]. }
  unfold after. cbn [result final trace].
  destruct (result (shutil_rmtree root (ensure_dir root s))); cbn [trace]; by rewrite Hrm.
Qed.

(** The Oracle calls of a construction that succeeds. *)
Lemma BaseTuner_init_Ok_calls (oarg : OracleArg O Loss) d p tid (ow : bool) s self :
  let r := BaseTuner_init json_loads oarg d p tid ow s in
  result r = Ok self ->
  exists hp,
    oracle_calls (trace r)
    = [Call_set_project_dir (or_default d ".") (or_default p "untitled_project") ow;
       Call_get_space (Some hp); Call_update_space hp].
Proof.
  intros r Hres.
  destruct (BaseTuner_init_Ok oarg d p tid ow s self Hres)
    as (o & hp & s1 & s2 & s3 & _ & _ & _ & _ & _ & _ & _ & _ & Htrace).
  cbv zeta in Htrace. fold r in Htrace. exists hp. rewrite Htrace.
  destruct (init_remove_project_run (or_default d ".") (or_default p "untitled_project") ow s)
    as (Hpre & _).
  destruct (init_reload_run self ow s3) as (Hpost & _).
  pose proof (fs_events_no_oracle_calls _ Hpre) as Hnone.
  unfold oracle_calls in *. rewrite !flat_map_app, Hnone, Hpost. done.
Qed.

(** C4, as the code has it. A [BaseTuner] whose [oracle] argument is not
    an Oracle is refused with a [ValueError] that names the argument: with
    [overwrite=False] before anything else happens; with [overwrite=True]
    after the project directory has been created and removed with all that
    was in it, unless a regular file stands at its path: then the
    construction ends with the [OSError] of [shutil.rmtree], and the
    argument is not looked at. A [PipeTuner] whose [model] is not a
    recommender goes through the whole construction of the [BaseTuner]
    first: when that raises, its exception comes out; when it succeeds, a
    [TypeError] is raised, and by then the project directory has been
    created and the Oracle's [set_project_dir], [get_space] and
    [update_space] have been called. *)
Theorem init_validation_order {Pipe Cfg Data : Type} :
  (forall repr d p tid s,
     BaseTuner_init (Loss:=Loss) json_loads (NotAnOracle repr) d p tid false s
     = mkRun s [] (Raise (not_an_oracle_error repr))) /\
  (forall repr d p tid s,
     let root := project_root d p in
     let r := BaseTuner_init (Loss:=Loss) json_loads (NotAnOracle repr) d p tid true s in
     trace r = [EFs (Op_create_directory root); EFs (Op_exists root);
                EFs (Op_create_directory root); EFs (Op_rmtree root)] /\
     fs_ops (trace r) = [Op_create_directory root; Op_exists root;
                         Op_create_directory root; Op_rmtree root] /\
     ((forall content, fs s !! root <> Some (File content)) ->
      result r = Raise (not_an_oracle_error repr) /\
      forall q, q = root \/ inside root q = true -> fs (final r) !! q = None) /\
     (forall content, fs s !! root = Some (File content) ->
      result r = Raise (OSError root) /\ final r = s)) /\
  (forall (oarg : OracleArg O Loss) d p tid ow s,
     let b := BaseTuner_init json_loads oarg d p tid ow s in
     let r := PipeTuner_init (Pipe:=Pipe) (Cfg:=Cfg) (Data:=Data) json_loads oarg
                NotARecommender d p tid ow s in
     final r = final b /\ trace r = trace b /\
     (forall e, result b = Raise e -> result r = Raise e) /\
     (forall self, result b = Ok self ->
        result r = Raise (TypeError
          "PipeTuner.model must be an instance of CFRecommender or CTRRecommender!") /\
        Op_create_directory (project_root d p) ∈ fs_ops (trace r) /\
        exists hp,
          oracle_calls (trace r)
          = [Call_set_project_dir (or_default d ".") (or_default p "untitled_project") ow;
             Call_get_space (Some hp); Call_update_space hp])).
Proof.
  split; [|split].
  - intros. apply init_not_an_oracle_keep.
  - intros repr d p tid s root r.
    destruct (init_not_an_oracle_overwrite repr d p tid s) as [Hops Hdir].
    fold root r in Hops, Hdir.
    split; [apply init_not_an_oracle_overwrite_trace|]. split; [done|]. split; [done|].
    intros content Hfile. subst r.
    by rewrite (init_overwrite_on_file (NotAnOracle repr) d p tid s content Hfile).
  - intros oarg d p tid ow s b r.
    destruct (PipeTuner_init_not_a_recommender (Pipe:=Pipe) (Cfg:=Cfg) (Data:=Data)
                oarg d p tid ow s) as (Hfinal & Htrace & Hres).
    fold b r in Hfinal, Htrace, Hres.
    split; [done|]. split; [done|]. split.
    + intros e He. by rewrite Hres, He.
    + intros self Hself. split; [by rewrite Hres, Hself|].
      rewrite Htrace. split; [by eapply BaseTuner_init_touches|].
      by eapply BaseTuner_init_Ok_calls.
Qed.
End Construction.

(** A construction on the scripted Oracle, whose space has one
    hyperparameter: it is handed back to the Oracle. *)
Lemma init_populates_space_witness :
  let hp := [("units", 4)] in
  let s := mkSt ∅ (Double.mkOState [] Double.stopped [] hp []) in
  let r := BaseTuner_init (Loss:=Z) Double.loads (AnOracle (Double.scripted Z))
             None (Some "p") None false s in
  oracle_calls (trace r)
  = [Call_set_project_dir "." "p" false; Call_get_space (Some hp); Call_update_space hp] /\
  Double.space (ost (final r)) = (hp ++ hp)%list.
Proof.
  intros hp s r.
  destruct (init_populates_space Double.loads (Double.scripted Z) None (Some "p") None
              false s s s _ hp (Ok tt) eq_refl eq_refl eq_refl eq_refl)
    as (_ & Hcalls & Host & _).
  fold r in Hcalls, Host. split; [exact Hcalls|]. by rewrite Host.
Defined.

(** A project with a saved tuner state, and a construction with
    [overwrite=True] whose [oracle] argument is [None]: the project is
    removed, and then the argument is refused, with a [ValueError]. And a
    [PipeTuner] whose [model] is not a recommender, in an empty directory:
    the project directory is there when the [TypeError] is raised. *)
Lemma init_fails_fast_counterexample :
  let s := mkSt (<["./p/tuner_0.json" := File "{}"]> (<["./p" := Dir]> ∅))
                (Double.ostate [] Double.stopped []) in
  let r := BaseTuner_init (Loss:=Z) Double.loads (NotAnOracle "None")
             None (Some "p") None true s in
  let s' := mkSt ∅ (Double.ostate [] Double.stopped []) in
  let r' := PipeTuner_init (Loss:=Z) (Pipe:=string) (Cfg:=Z) (Data:=unit) Double.loads
              (AnOracle (Double.scripted Z)) NotARecommender None (Some "p") None false s' in
  (result r = Raise (ValueError "Expected oracle to be an instance of Oracle, got: None") /\
   fs_ops (trace r) = [Op_create_directory "./p"; Op_exists "./p";
                       Op_create_directory "./p"; Op_rmtree "./p"] /\
   fs s !! "./p/tuner_0.json" = Some (File "{}") /\
   fs (final r) !! "./p/tuner_0.json" = None /\
   fs (final r) !! "./p" = None) /\
  (result r' = Raise (TypeError
     "PipeTuner.model must be an instance of CFRecommender or CTRRecommender!") /\
   fs_ops (trace r') = [Op_create_directory "./p"; Op_exists "./p/tuner_0.json"] /\
   fs s' !! "./p" = None /\
   fs (final r') !! "./p" = Some Dir).
Proof. vm_compute. repeat split. Qed.

(** The same project and construction: the refusal comes after the removal. *)
Lemma init_validation_order_witness :
  let s := mkSt (<["./p/tuner_0.json" := File "{}"]> (<["./p" := Dir]> ∅))
                (Double.ostate [] Double.stopped []) in
  let r := BaseTuner_init (Loss:=Z) Double.loads (NotAnOracle "None")
             None (Some "p") None true s in
  let s' := mkSt (<["./p" := File "notes"]> ∅) (Double.ostate [] Double.stopped []) in
  let r' := BaseTuner_init (Loss:=Z) Double.loads (NotAnOracle "None")
              None (Some "p") None true s' in
  (result r = Raise (not_an_oracle_error "None") /\
   forall q, q = "./p" \/ inside "./p" q = true -> fs (final r) !! q = None) /\
  (result r' = Raise (OSError "./p") /\ final r' = s').
Proof.
  intros s r s' r'.
  destruct (init_validation_order (O:=Double.OState) (Loss:=Z) Double.loads
              (Pipe:=string) (Cfg:=Z) (Data:=unit)) as (_ & Hrm & _).
  split.
  - destruct (Hrm "None" None (Some "p") None s) as (_ & _ & Hres & _).
    apply Hres. intros content. vm_compute. discriminate.
  - destruct (Hrm "None" None (Some "p") None s') as (_ & _ & _ & Hfile).
    apply (Hfile "notes"). reflexivity.
Defined.

(** ** Saving and reloading the tuner state *)

Section Reload.
Context {O Loss : Type}.
Variable json_dumps : State -> string.
Variable json_loads : string -> option State.
Implicit Types (s : St O) (d p : option string) (tid : option Z).

Lemma append_self (a b : string) : a +:+ b = a -> b = "".
Proof.
  induction a as [|c a IH]; simpl; [done|]. intros [= H]. by apply IH.
Qed.

Lemma os_path_join_ne (a b : string) :
  b <> "" -> String.prefix "/" b = false -> os_path_join a b <> a.
Proof.
  intros Hb Hrel. unfold os_path_join. rewrite Hrel.
  destruct (bool_decide (a = "") || ends_with_sep a); intros H.
  - by apply append_self in H.
  - by apply append_self in H.
Qed.

Lemma tuner_file_ne_root d p tid : tuner_file d p tid <> project_root d p.
Proof. unfold tuner_file. by apply os_path_join_ne. Qed.

(** [save] leaves the serialized state in the tuner's file. *)
Lemma save_writes o d p tid s :
  let self := mkBaseTuner (or_default d ".") (or_default p "untitled_project") o
                (match tid with Some i => i | None => 0 end) in
  let r := save (Loss:=Loss) json_dumps self s in
  result r = Ok tt /\
  fs (final r) !! tuner_file d p tid = Some (File (json_dumps (get_state self))).
Proof.
  intros self r. subst r. rewrite save_run. simpl.
  split; [done|]. apply lookup_insert_eq.
Qed.

(** The last statement of [__init__] when the state file is there. *)
Lemma init_reload_found o d p tid s content state :
  let self := mkBaseTuner (or_default d ".") (or_default p "untitled_project") o
                (match tid with Some i => i | None => 0 end) in
  fs s !! tuner_file d p tid = Some (File content) ->
  json_loads content = Some state ->
  let r := init_reload (Loss:=Loss) json_loads self false s in
  result r = Ok tt /\
  trace r = [EFs (Op_create_directory (project_root d p));
             EFs (Op_exists (tuner_file d p tid));
             EFs (Op_create_directory (project_root d p));
             EMethod M_reload
               [EFs (Op_create_directory (project_root d p));
                EFs (Op_read (tuner_file d p tid));
                EMethod (M_set_state state) []]].
Proof.
  intros self Hfile Hloads r. subst r.
  pose proof (tuner_file_ne_root d p tid) as Hne.
  rewrite init_reload_false. simpl.
  fold (project_root d p). fold (tuner_file d p tid).
  assert (fs (ensure_dir (project_root d p) s) !! tuner_file d p tid = Some (File content))
    as Hfile' by (by rewrite ensure_dir_lookup_ne).
  rewrite bool_decide_true by (by rewrite Hfile').
  rewrite method_run, reload_run. simpl.
  fold (project_root d p). fold (tuner_file d p tid).
  rewrite ensure_dir_again, Hfile', Hloads. done.
Qed.

(** The last statement of [__init__] when a file stands at the path of
    the state file, whatever it holds. *)
Lemma init_reload_file o d p tid s content :
  let self := mkBaseTuner (or_default d ".") (or_default p "untitled_project") o
                (match tid with Some i => i | None => 0 end) in
  let root := project_root d p in
  let fname := tuner_file d p tid in
  fs s !! fname = Some (File content) ->
  init_reload (Loss:=Loss) json_loads self false s
  = mkRun (ensure_dir root s)
      [EFs (Op_create_directory root); EFs (Op_exists fname);
       EFs (Op_create_directory root);
       EMethod M_reload
         (match json_loads content with
          | Some state => [EFs (Op_create_directory root); EFs (Op_read fname);
                           EMethod (M_set_state state) []]
          | None => [EFs (Op_create_directory root); EFs (Op_read fname)]
          end)]
      (match json_loads content with
       | Some _ => Ok tt
       | None => Raise (ValueError "Expecting value")
       end).
Proof.
  intros self root fname Hfile.
  pose proof (tuner_file_ne_root d p tid) as Hne.
  rewrite init_reload_false. simpl.
  fold (project_root d p). fold (tuner_file d p tid). fold root fname.
  assert (fs (ensure_dir root s) !! fname = Some (File content))
    as Hfile' by (by rewrite ensure_dir_lookup_ne).
  rewrite bool_decide_true by (by rewrite Hfile').
  rewrite method_run, reload_run. simpl.
  fold (project_root d p). fold (tuner_file d p tid). fold root fname.
  rewrite ensure_dir_again, Hfile'. unfold after. simpl.
  by destruct (json_loads content).
Qed.

(** C8. A tuner saved its state; a tuner is then constructed for the same
    [directory], [project_name] and [tuner_id] with [overwrite=False].
    The save left the serialized [get_state()] in the state file. The
    construction reads the state file, whatever it holds, as its last
    step: [set_state] receives the state decoded from the content of the
    file, once, after the Oracle calls, and the file is left as it was (a
    content that does not decode ends the construction with the decoder's
    [ValueError]). So, when the file is as the save left it, [set_state]
    receives what [get_state] returned when the state was saved, and
    [get_state] of the new tuner returns the same. The Oracle's own
    methods are taken to return and to leave the file alone, and for the
    round trip the serializer to read back what it wrote. *)
Theorem reload_round_trip (o_prev o : Oracle O Loss) d p tid (s_prev s : St O) :
  let d' := or_default d "." in
  let p' := or_default p "untitled_project" in
  let tid' := match tid with Some i => i | None => 0 end in
  let old := mkBaseTuner d' p' o_prev tid' in
  let self := mkBaseTuner d' p' o tid' in
  let root := project_root d p in
  let fname := tuner_file d p tid in
  returns_keeping fname (impl_set_project_dir o d' p' false) ->
  returns_keeping fname (impl_get_space o) ->
  (forall hp, returns_keeping fname (impl_update_space o hp)) ->
  let saved := save json_dumps old s_prev in
  let r := BaseTuner_init json_loads (AnOracle o) d p tid false s in
  (result saved = Ok tt /\
   fs (final saved) !! fname = Some (File (json_dumps (get_state old)))) /\
  (forall content, fs s !! fname = Some (File content) ->
     fs (final r) !! fname = Some (File content) /\
     exists hp,
       let before := [EOracle (Call_set_project_dir d' p' false);
                      EOracle (Call_get_space (Some hp));
                      EOracle (Call_update_space hp);
                      EFs (Op_create_directory root); EFs (Op_exists fname);
                      EFs (Op_create_directory root)] in
       match json_loads content with
       | Some state =>
           result r = Ok self /\
           trace r = (before ++
                      [EMethod M_reload
                         [EFs (Op_create_directory root); EFs (Op_read fname);
                          EMethod (M_set_state state) []]])%list
       | None =>
           result r = Raise (ValueError "Expecting value") /\
           trace r = (before ++
                      [EMethod M_reload
                         [EFs (Op_create_directory root); EFs (Op_read fname)]])%list
       end) /\
  (fs s !! fname = fs (final saved) !! fname ->
   json_loads (json_dumps (get_state old)) = Some (get_state old) ->
   exists inner,
     result r = Ok self /\
     last (trace r) = Some (EMethod M_reload inner) /\
     last inner = Some (EMethod (M_set_state (get_state old)) []) /\
     get_state self = get_state old /\
     directory self = directory old /\
     project_name self = project_name old /\
     tuner_id self = tuner_id old).
Proof.
  intros d' p' tid' old self root fname Hset Hget Hupd saved r.
  destruct (save_writes o_prev d p tid s_prev) as [Hsaved_ok Hsaved].
  fold d' p' tid' old fname saved in Hsaved_ok, Hsaved.
  destruct (Hset s) as [Hk1 [[] Hr1]].
  destruct (impl_set_project_dir o d' p' false s) as [s1 r1] eqn:H1.
  simpl in Hk1, Hr1. subst r1.
  destruct (Hget s1) as [Hk2 [hp Hr2]].
  destruct (impl_get_space o s1) as [s2 r2] eqn:H2. simpl in Hk2, Hr2. subst r2.
  destruct (Hupd hp s2) as [Hk3 [[] Hr3]].
  destruct (impl_update_space o hp s2) as [s3 r3] eqn:H3. simpl in Hk3, Hr3. subst r3.
  pose proof (BaseTuner_init_steps json_loads o d p tid false s s1 s2 s3 hp (Ok tt)
                eq_refl H1 H2 H3) as Hrun.
  cbv zeta in Hrun. fold d' p' tid' self r in Hrun.
  change (init_remove_project d' p' false s) with (mkRun (Loss:=Loss) s [] (Ok tt)) in Hrun.
  cbn [trace app] in Hrun.
  assert (forall content, fs s !! fname = Some (File content) ->
          fs (final r) !! fname = Some (File content) /\
          exists hp0,
            match json_loads content with
            | Some state =>
                result r = Ok self /\
                trace r = ([EOracle (Call_set_project_dir d' p' false);
                            EOracle (Call_get_space (Some hp0));
                            EOracle (Call_update_space hp0);
                            EFs (Op_create_directory root); EFs (Op_exists fname);
                            EFs (Op_create_directory root)] ++
                           [EMethod M_reload
                              [EFs (Op_create_directory root); EFs (Op_read fname);
                               EMethod (M_set_state state) []]])%list
            | None =>
                result r = Raise (ValueError "Expecting value") /\
                trace r = ([EOracle (Call_set_project_dir d' p' false);
                            EOracle (Call_get_space (Some hp0));
                            EOracle (Call_update_space hp0);
                            EFs (Op_create_directory root); EFs (Op_exists fname);
                            EFs (Op_create_directory root)] ++
                           [EMethod M_reload
                              [EFs (Op_create_directory root); EFs (Op_read fname)]])%list
            end) as Hany.
  { intros content Hfile.
    assert (fs s3 !! fname = Some (File content)) as Hfile3
      by (by rewrite Hk3, Hk2, Hk1).
    pose proof (init_reload_file o d p tid s3 content Hfile3) as Hr4.
    cbv zeta in Hr4. fold d' p' tid' self root fname in Hr4.
    rewrite Hr4 in Hrun. cbn [result final trace] in Hrun. rewrite Hrun.
    cbn [result final trace]. split.
    - rewrite ensure_dir_lookup_ne by apply tuner_file_ne_root. done.
    - exists hp. by destruct (json_loads content). }
  split; [done|]. split; [exact Hany|].
  intros Hfile Hjson. rewrite Hsaved in Hfile.
  destruct (Hany _ Hfile) as [_ [hp0 Hround]]. rewrite Hjson in Hround.
  destruct Hround as [Hres Htrace].
  eexists. split; [exact Hres|]. rewrite Htrace. repeat split; reflexivity.
Qed.
End Reload.

(** The stub tuner saves its state, and a tuner is constructed again; and
    a construction on a state file of some content, with a decoder that
    keeps the content. *)
Lemma reload_round_trip_witness :
  let old := mkBaseTuner "." "p" (Double.scripted Z) 0 in
  let s := final (save Double.dumps old (mkSt ∅ (Double.ostate [] Double.stopped []))) in
  let r := BaseTuner_init Double.loads (AnOracle (Double.scripted Z))
             None (Some "p") None false s in
  let s' := mkSt (<["./p/tuner_0.json" := File "abc"]> (<["./p" := Dir]> ∅))
                 (Double.ostate [] Double.stopped []) in
  let r' := BaseTuner_init (fun data => Some [("note", data)]) (AnOracle (Double.scripted Z))
              None (Some "p") None false s' in
  (exists inner,
     result r = Ok old /\
     last (trace r) = Some (EMethod M_reload inner) /\
     last inner = Some (EMethod (M_set_state (get_state old)) [])) /\
  (exists inner,
     last (trace r') = Some (EMethod M_reload inner) /\
     last inner = Some (EMethod (M_set_state [("note", "abc")]) [])).
Proof.
  intros old s r s' r'.
  assert (forall d p (ow : bool),
            returns_keeping "./p/tuner_0.json"
              (impl_set_project_dir (Double.scripted Z) d p ow)) as Hset
    by (intros d p ow s0; split; [reflexivity|by eexists]).
  assert (returns_keeping "./p/tuner_0.json" (impl_get_space (Double.scripted Z))) as Hget
    by (intros s0; split; [reflexivity|by eexists]).
  assert (forall hp, returns_keeping "./p/tuner_0.json"
                       (impl_update_space (Double.scripted Z) hp)) as Hupd
    by (intros hp s0; split; [reflexivity|by eexists]).
  split.
  - destruct (reload_round_trip Double.dumps Double.loads (Double.scripted Z)
                (Double.scripted Z) None (Some "p") None
                (mkSt ∅ (Double.ostate [] Double.stopped [])) s
                (Hset "." "p" false) Hget Hupd) as (_ & _ & Hround).
    destruct (Hround eq_refl eq_refl) as (inner & Hres & Hlast & Hstate & _).
    exists inner. by repeat split.
  - destruct (reload_round_trip Double.dumps (fun data => Some [("note", data)])
                (Double.scripted Z) (Double.scripted Z) None (Some "p") None
                (mkSt ∅ (Double.ostate [] Double.stopped [])) s'
                (Hset "." "p" false) Hget Hupd) as (_ & Hany & _).
    destruct (Hany "abc" eq_refl) as [_ [hp [_ Htrace]]].
    eexists. fold r' in Htrace. rewrite Htrace. split; reflexivity.
Defined.

(** ** [PipeTuner.run_trial] *)

Section RunTrial.
Context {O Loss Pipe Cfg Data : Type}.
Variable json_loads : string -> option State.
Variable lib : PipeLib O Loss Pipe Cfg Data.
Implicit Types (s : St O) (self : PipeTuner O Loss Pipe Cfg Data) (trial : Trial).

(** What [__init__] leaves: no [config], no data. *)
Lemma PipeTuner_init_attributes (oarg : OracleArg O Loss) (model : ModelArg Pipe)
    d p tid (ow : bool) s self :
  result (PipeTuner_init json_loads oarg model d p tid ow s) = Ok self ->
  config self = None /\ train_X self = None /\ train_y self = None /\
  val_X self = None /\ val_y self = None.
Proof.
  unfold PipeTuner_init, bind, ret, raise.
  destruct (result (BaseTuner_init json_loads oarg d p tid ow s)) as [b|e]; simpl; [|done].
  destruct model; simpl; [intros [= <-]; done..|done].
Qed.

(** C5, at the tuner as [__init__] leaves it. [run_trial] reads
    [self.config], which no statement of the class assigns: it raises
    [AttributeError] before it calls anything, for every trial. And with
    the attributes assigned from outside, the name [Recommender], which
    the module does not import, raises [NameError] after the
    configuration has been made: no model is built, none is trained, and
    [Oracle.update_trial] is not called. *)
Theorem run_trial_as_written (oarg : OracleArg O Loss) (model : ModelArg Pipe)
    d p tid (ow : bool) s self trial s' :
  result (PipeTuner_init json_loads oarg model d p tid ow s) = Ok self ->
  (forall globals,
     PipeTuner_run_trial lib globals self trial s'
     = mkRun s' [] (Raise (AttributeError "'PipeTuner' object has no attribute 'config'"))) /\
  (forall cfg x1 x2 x3 x4,
     let self' := mkPipeTuner (super self) (_pipe self) (context self)
                    (Some cfg) (Some x1) (Some x2) (Some x3) (Some x4) in
     let r := PipeTuner_run_trial lib module_globals self' trial s' in
     (exists e, result r = Raise e) /\
     oracle_calls (trace r) = [] /\
     (EPipe Call_Recommender ∉ trace r) /\ (EPipe Call_train ∉ trace r)).
Proof.
  intros Hinit.
  destruct (PipeTuner_init_attributes oarg model d p tid ow s self Hinit) as (Hcfg & _).
  split.
  - intros globals. unfold PipeTuner_run_trial. rewrite Hcfg.
    by erewrite bind_stop by reflexivity.
  - intros cfg x1 x2 x3 x4 self' r. subst r.
    unfold PipeTuner_run_trial. cbn [config self'].
    erewrite bind_step by reflexivity. unfold getitem.
    destruct (cfg !! "ModelOption") as [model_option|]; simpl.
    2:{ split; [by eexists|]. split; [done|]. split; set_unfold; intuition discriminate. }
    destruct (lib_set_tunable_hps lib model_option (hyperparameters trial) s')
      as [s1 [cfg'|e]] eqn:Hset.
    + erewrite bind_step by (unfold call; rewrite Hset; reflexivity).
      erewrite bind_stop by reflexivity. simpl.
      split; [by eexists|]. split; [done|]. split; set_unfold; intuition discriminate.
    + erewrite bind_stop by (unfold call; rewrite Hset; reflexivity). simpl.
      split; [by eexists|]. split; [done|]. split; set_unfold; intuition discriminate.
Qed.

Lemma get_scores_run self (m : Pipe) s cfg x1 x2 x3 x4 s3 val_loss :
  config self = Some cfg ->
  train_X self = Some x1 -> train_y self = Some x2 ->
  val_X self = Some x3 -> val_y self = Some x4 ->
  lib_train lib m x1 x2 x3 x4 cfg s = (s3, Ok val_loss) ->
  get_scores lib self m s = mkRun s3 [EPipe Call_train] (Ok [("mse", val_loss)]).
Proof.
  intros Hcfg H1 H2 H3 H4 Htrain. unfold get_scores.
  rewrite Hcfg, H1, H2, H3, H4.
  do 5 (erewrite bind_step by reflexivity).
  erewrite bind_step by (unfold call; rewrite Htrain; reflexivity).
  reflexivity.
Qed.

(** With the names bound (the attributes assigned from outside and
    [Recommender] put into the globals), [run_trial] does what C5 says:
    the configuration from the trial's hyperparameters, a new model from
    it, its training, and the report to the Oracle. *)
Lemma run_trial_names_bound self trial s
    (new : Cfg -> Ext O Pipe) cfg model_option x1 x2 x3 x4 s1 cfg' s2 m s3 val_loss :
  config self = Some cfg -> cfg !! "ModelOption" = Some model_option ->
  train_X self = Some x1 -> train_y self = Some x2 ->
  val_X self = Some x3 -> val_y self = Some x4 ->
  lib_set_tunable_hps lib model_option (hyperparameters trial) s = (s1, Ok cfg') ->
  new cfg' s1 = (s2, Ok m) ->
  lib_train lib m x1 x2 x3 x4 cfg s2 = (s3, Ok val_loss) ->
  let r := PipeTuner_run_trial lib {| Recommender := Some new |} self trial s in
  let upd := impl_update_trial (oracle (super self)) (trial_id trial) [("mse", val_loss)] s3 in
  trace r = [EPipe (Call_set_tunable_hps (hyperparameters trial));
             EPipe Call_Recommender; EPipe Call_train;
             EOracle (Call_update_trial (trial_id trial) [("mse", val_loss)])] /\
  final r = upd.1 /\
  result r = match upd.2 with Ok _ => Ok None | Raise e => Raise e end.
Proof.
  intros Hcfg Hopt H1 H2 H3 H4 Hset Hnew Htrain r upd. subst r upd.
  unfold PipeTuner_run_trial. rewrite Hcfg.
  erewrite bind_step by reflexivity.
  erewrite bind_step by (unfold getitem; rewrite Hopt; reflexivity).
  erewrite bind_step by (unfold call; rewrite Hset; reflexivity).
  cbn [Recommender].
  erewrite bind_step by (unfold call; rewrite Hnew; reflexivity).
  erewrite bind_step by (by eapply get_scores_run).
  unfold Oracle_update_trial, bind, call, after.
  destruct (impl_update_trial _ _ _ s3) as [s4 [[]|e]]; simpl; done.
Qed.

(** With the names bound, [run_trial] reports whatever [model.train]
    returned as validation loss to [Oracle.update_trial], under the key
    ["mse"]: nothing looks at how many outputs it has, and nothing raises
    when the Oracle's method returns. *)
Lemma run_trial_reports_any_loss self trial s
    (new : Cfg -> Ext O Pipe) cfg model_option x1 x2 x3 x4 s1 cfg' s2 m s3 val_loss s4 :
  config self = Some cfg -> cfg !! "ModelOption" = Some model_option ->
  train_X self = Some x1 -> train_y self = Some x2 ->
  val_X self = Some x3 -> val_y self = Some x4 ->
  lib_set_tunable_hps lib model_option (hyperparameters trial) s = (s1, Ok cfg') ->
  new cfg' s1 = (s2, Ok m) ->
  lib_train lib m x1 x2 x3 x4 cfg s2 = (s3, Ok val_loss) ->
  impl_update_trial (oracle (super self)) (trial_id trial) [("mse", val_loss)] s3 = (s4, Ok tt) ->
  let r := PipeTuner_run_trial lib {| Recommender := Some new |} self trial s in
  result r = Ok None /\
  oracle_calls (trace r) = [Call_update_trial (trial_id trial) [("mse", val_loss)]].
Proof.
  intros Hcfg Hopt H1 H2 H3 H4 Hset Hnew Htrain Hupd r.
  destruct (run_trial_names_bound self trial s new cfg model_option x1 x2 x3 x4
              s1 cfg' s2 m s3 val_loss) as (Htrace & _ & Hres); try done.
  fold r in Htrace, Hres. rewrite Hupd in Hres. by rewrite Htrace.
Qed.


End RunTrial.

(** A [PipeTuner] as [__init__] leaves it, on the scripted Oracle. *)
Lemma run_trial_as_written_witness :
  let s := mkSt ∅ (Double.ostate [] Double.stopped []) in
  let built := PipeTuner_init (Loss:=list Z) (Pipe:=string) (Cfg:=Z) (Data:=unit)
                 Double.loads (AnOracle (Double.scripted (list Z)))
                 (A_CFRecommender "model") None (Some "p") None false s in
  let trial := Double.running "a" [("units", 32)] in
  exists self,
    result built = Ok self /\
    PipeTuner_run_trial Double.lib module_globals self trial (final built)
    = mkRun (final built) []
        (Raise (AttributeError "'PipeTuner' object has no attribute 'config'")).
Proof.
  intros s built trial.
  exists (mkPipeTuner (mkBaseTuner "." "p" (Double.scripted (list Z)) 0) "model" []
            None None None None None).
  split; [reflexivity|].
  apply (run_trial_as_written Double.loads Double.lib (AnOracle (Double.scripted (list Z)))
           (A_CFRecommender "model") None (Some "p") None false s _ trial (final built)).
  reflexivity.
Defined.


(** A [PipeTuner] with the names bound and a model whose validation loss
    has two outputs: both are sent to the Oracle. *)
Lemma run_trial_reports_any_loss_witness :
  let s := mkSt ∅ (Double.ostate [] Double.stopped []) in
  let self := mkPipeTuner (mkBaseTuner "." "p" (Double.scripted (list Z)) 0) "model" []
                (Some {["ModelOption" := 7]}) (Some tt) (Some tt) (Some tt) (Some tt) in
  let trial := Double.running "a" [("units", 32)] in
  let r := PipeTuner_run_trial Double.lib Double.patched_globals self trial s in
  result r = Ok None /\
  oracle_calls (trace r) = [Call_update_trial "a" [("mse", [1; 2])]].
Proof.
  intros s self trial r.
  apply (run_trial_reports_any_loss Double.lib self trial s (fun _ s => (s, Ok "fresh"))
           {["ModelOption" := 7]} 7 tt tt tt tt s 7 s "fresh" s [1; 2] s);
    reflexivity.
Defined.


(** * Further properties of the code *)

(** ** The search loop: what is run, and in which order *)

Section SearchOrder.
Context {O Loss Self Model : Type}.
Variable json_dumps : State -> string.
Variable cls : TunerClass O Loss Self Model.
Implicit Types (s : St O) (self : Self) (t : Trial).

(** One pass: the calls it makes. *)
Lemma search_iteration_calls self s :
  let it := search_iteration json_dumps cls self s in
  run_trial_calls (trace it) = filter runnable (handed_out_trials (trace it)) /\
  (length (handed_out_trials (trace it)) <= 1)%nat /\
  on_trial_end_calls (trace it) `prefix_of` run_trial_calls (trace it) /\
  (length (run_trial_calls (trace it)) <= S (length (on_trial_end_calls (trace it))))%nat /\
  (forall flow, result it = Ok flow ->
     on_trial_end_calls (trace it) = run_trial_calls (trace it)).
Proof.
  intros it. subst it. rewrite search_iteration_run. cbv zeta.
  destruct (impl_create_trial _ _ s) as [s1 [t|e]];
    [|repeat split; try done; simpl; lia].
  case_bool_decide as Hs.
  { cbn [trace result]. unfold handed_out_trials, handed_out. simpl.
    rewrite filter_cons_False by (intros [? _]; done).
    repeat split; try done; simpl; lia. }
  case_bool_decide as Hi.
  { cbn [trace result]. unfold handed_out_trials, handed_out. simpl.
    rewrite filter_cons_False by (intros [_ ?]; done).
    repeat split; try done; simpl; lia. }
  cbv zeta.
  destruct (result (run_trial cls self t s1)) as [model|e]; cbn [trace result];
    unfold handed_out_trials, handed_out; simpl;
    rewrite filter_cons_True by (by split); simpl.
  - repeat split; try done. lia.
  - split; [done|]. split; [done|]. split; [by exists [t]|]. split; [lia|done].
Qed.

(** X1. Whatever the Oracle and the hooks do, and for every number of
    passes: [run_trial] is called on exactly the trials handed out whose
    status is neither [STOPPED] nor [IDLE], in the order they were handed
    out; [on_trial_end] is called only on trials [run_trial] was called on,
    in the same order, and lags behind by at most the one trial whose
    [run_trial] raised; each pass asks the Oracle for one trial at most. *)
Theorem search_runs_in_order (fuel : nat) self s :
  let r := search json_dumps cls fuel self s in
  run_trial_calls (trace r) = filter runnable (handed_out_trials (trace r)) /\
  on_trial_end_calls (trace r) `prefix_of` run_trial_calls (trace r) /\
  (length (run_trial_calls (trace r)) <= S (length (on_trial_end_calls (trace r))))%nat /\
  (forall v, result r = Ok v ->
     on_trial_end_calls (trace r) = run_trial_calls (trace r)) /\
  (length (handed_out_trials (trace r)) <= fuel)%nat.
Proof.
  cbv zeta. revert s.
  induction fuel as [|fuel IH]; intros s; [repeat split; try done; simpl; lia|].
  destruct (search_iteration_calls self s) as (Hrun & Hone & Hpre & Hlen & Hok).
  simpl. unfold bind.
  destruct (result (search_iteration json_dumps cls self s)) as [[]|e] eqn:Hres;
    cbn [trace result final].
  - rewrite app_nil_r. split; [done|]. split; [done|]. split; [done|].
    split; [by eauto|]. lia.
  - destruct (IH (final (search_iteration json_dumps cls self s)))
      as (Hrun' & Hpre' & Hlen' & Hok' & Hfuel').
    unfold run_trial_calls, on_trial_end_calls, handed_out_trials in *.
    rewrite !omap_app, filter_app, !length_app.
    specialize (Hok _ eq_refl). rewrite Hok in *.
    split; [by rewrite Hrun, Hrun'|]. split; [by apply prefix_app|].
    split; [lia|]. split; [|lia].
    intros v Hv. by rewrite (Hok' v Hv).
  - split; [done|]. split; [done|]. split; [done|]. split; [done|]. lia.
Qed.

Lemma search_iteration_Break_trace self s :
  result (search_iteration json_dumps cls self s) = Ok Break ->
  exists t, trace (search_iteration json_dumps cls self s)
            = [handed_out (tuner_id (base cls self)) t] /\ status t = STOPPED.
Proof.
  rewrite search_iteration_run. cbv zeta.
  destruct (impl_create_trial _ _ s) as [s1 [t|e]]; [|done].
  case_bool_decide as Hs; [intros _; by exists t|].
  case_bool_decide as Hi; [done|]. cbv zeta.
  destruct (result (run_trial cls self t s1)) as [model|e]; cbn [result]; [|done].
  by destruct (result (on_trial_end _ _ _ _ _ _)).
Qed.

Lemma run_trial_calls_runnable (fuel : nat) self s t :
  t ∈ run_trial_calls (trace (search json_dumps cls fuel self s)) -> runnable t.
Proof.
  revert s. induction fuel as [|fuel IH]; intros s; simpl.
  - intros Hin. by apply elem_of_nil in Hin.
  - destruct (search_iteration_calls self s) as (Hrun & _).
    unfold bind.
    destruct (result (search_iteration json_dumps cls self s)) as [[]|e];
      cbn [trace]; rewrite ?app_nil_r.
    + rewrite Hrun. intros Hin. by apply list_elem_of_filter in Hin as [? _].
    + unfold run_trial_calls in *. rewrite omap_app, elem_of_app, Hrun.
      intros [Hin|Hin]; [by apply list_elem_of_filter in Hin as [? _]|by eapply IH].
    + rewrite Hrun. intros Hin. by apply list_elem_of_filter in Hin as [? _].
Qed.

(** X2. When [search] returns, the last thing it did was to receive a
    [STOPPED] trial from the Oracle: that trial is not run, and nothing is
    ended or saved after it. *)
Theorem search_returns_after_STOPPED (fuel : nat) self s :
  let r := search json_dumps cls fuel self s in
  result r = Ok (Some tt) ->
  exists t, last (trace r) = Some (handed_out (tuner_id (base cls self)) t) /\
            status t = STOPPED /\
            last (handed_out_trials (trace r)) = Some t /\
            t ∉ run_trial_calls (trace r).
Proof.
  intros r Hres.
  assert (exists t, last (trace r) = Some (handed_out (tuner_id (base cls self)) t) /\
                    status t = STOPPED /\
                    last (handed_out_trials (trace r)) = Some t) as (t & Hlast & Hst & Hout).
  { subst r. revert s Hres. induction fuel as [|fuel IH]; intros s; [done|].
    simpl. unfold bind.
    destruct (result (search_iteration json_dumps cls self s)) as [[]|e] eqn:Hit;
      cbn [trace result final]; [| |done].
    - intros _. destruct (search_iteration_Break_trace self s Hit) as (t & -> & Hst).
      exists t. by repeat split.
    - intros Hres. destruct (IH _ Hres) as (t & Hlast & Hst & Hout).
      exists t. unfold handed_out_trials in *.
      rewrite omap_app, !last_app, Hlast, Hout. done. }
  exists t. repeat split; try done.
  intros Hin. apply run_trial_calls_runnable in Hin as [Hns _]. done.
Qed.

(** X3. The busy poll. While the Oracle answers with an [IDLE] trial and
    stays as it is, every pass of [search] is one more request and nothing
    else: after [n] passes the Oracle has been asked [n] times, the state is
    unchanged and the loop is still running. *)
Theorem search_idle_spins self s t :
  impl_create_trial (oracle (base cls self)) (tuner_id (base cls self)) s = (s, Ok t) ->
  status t = IDLE ->
  forall fuel,
    search json_dumps cls fuel self s
    = mkRun s (replicate fuel (handed_out (tuner_id (base cls self)) t)) (Ok None).
Proof.
  intros Hcreate Hidle fuel. induction fuel as [|fuel IH]; [done|].
  simpl. unfold bind. rewrite search_iteration_run. cbv zeta. rewrite Hcreate.
  rewrite bool_decide_false by congruence. rewrite bool_decide_true by done.
  cbn [result final trace]. by rewrite IH.
Qed.

(** X4. A hook that raises ends [search] with its exception. When
    [run_trial] raises, [on_trial_end] is not called for the trial and the
    Oracle hears nothing but what [run_trial] itself told it; when
    [on_trial_end] raises, no further trial is requested. *)
Theorem search_aborts_on_exception self s s1 t (fuel : nat) :
  impl_create_trial (oracle (base cls self)) (tuner_id (base cls self)) s = (s1, Ok t) ->
  runnable t ->
  let tid := tuner_id (base cls self) in
  let r := search json_dumps cls (S fuel) self s in
  let r1 := run_trial cls self t s1 in
  (forall e, result r1 = Raise e ->
     r = mkRun (final r1) [handed_out tid t; EMethod (M_run_trial t) (trace r1)] (Raise e) /\
     on_trial_end_calls (trace r) = [] /\
     oracle_calls (trace r)
     = Call_create_trial tid (Some t) :: oracle_calls (trace r1)) /\
  (forall model e,
     result r1 = Ok model ->
     result (on_trial_end json_dumps cls self t model (final r1)) = Raise e ->
     result r = Raise e /\ handed_out_trials (trace r) = [t] /\
     run_trial_calls (trace r) = [t] /\ on_trial_end_calls (trace r) = [t]).
Proof.
  intros Hcreate [Hns Hni] tid r r1.
  pose proof (search_iteration_run json_dumps cls self s) as Hit.
  cbv zeta in Hit. rewrite Hcreate, !bool_decide_false in Hit by done.
  fold tid r1 in Hit. split.
  - intros e He. rewrite He in Hit.
    assert (r = mkRun (final r1) [handed_out tid t; EMethod (M_run_trial t) (trace r1)]
                      (Raise e)) as Hr.
    { subst r. simpl. unfold bind. by rewrite Hit. }
    rewrite Hr. cbn [trace]. split; [done|]. split; [done|].
    unfold oracle_calls. simpl. by rewrite app_nil_r.
  - intros model e Hm He. rewrite Hm, He in Hit.
    assert (result r = Raise e /\
            trace r = trace (search_iteration json_dumps cls self s)) as [Hres Htrace].
    { subst r. simpl. unfold bind. by rewrite Hit. }
    rewrite Hres, Htrace, Hit. by repeat split.
Qed.
End SearchOrder.

(** The base class itself: [run_trial] is not implemented. *)
Lemma search_aborts_on_exception_witness :
  let self := mkBaseTuner "." "p" (Double.scripted Z) 0 in
  let t := Double.running "a" [] in
  let s := mkSt ∅ (Double.ostate [t] Double.stopped []) in
  let r := search Double.dumps (BaseTuner_class (option string)) 2 self s in
  result r = Raise NotImplementedError /\ on_trial_end_calls (trace r) = [] /\
  oracle_calls (trace r) = [Call_create_trial 0 (Some t)].
Proof.
  intros self t s r.
  destruct (search_aborts_on_exception Double.dumps (BaseTuner_class (option string))
              self s (mkSt ∅ (Double.ostate [] Double.stopped [])) t 1 eq_refl)
    as [Hrun _]; [by split|].
  destruct (Hrun NotImplementedError eq_refl) as (Hr & Hend & Hcalls).
  fold r in Hr, Hend, Hcalls. rewrite Hr at 1. done.
Defined.

(** An Oracle that is still computing: three passes, three requests. *)
Lemma search_idle_spins_witness :
  let self := mkBaseTuner "." "p" (Double.scripted Z) 0 in
  let idle := mkTrial "" [] IDLE in
  let s := mkSt ∅ (Double.ostate [] idle []) in
  search Double.dumps (Double.Stub_class _ _) 3 self s
  = mkRun s [handed_out 0 idle; handed_out 0 idle; handed_out 0 idle] (Ok None).
Proof.
  intros self idle s.
  apply (search_idle_spins Double.dumps (Double.Stub_class _ _) self s idle);
    reflexivity.
Defined.

(** The stub tuner on one trial and a [STOPPED] one. *)
Lemma search_returns_after_STOPPED_witness :
  let self := mkBaseTuner "." "p" (Double.scripted Z) 0 in
  let s := mkSt ∅ (Double.ostate [Double.running "a" []] Double.stopped []) in
  let r := search Double.dumps (Double.Stub_class _ _) 5 self s in
  exists t, last (trace r) = Some (handed_out 0 t) /\ status t = STOPPED /\
            last (handed_out_trials (trace r)) = Some t /\
            t ∉ run_trial_calls (trace r).
Proof.
  intros self s r.
  apply (search_returns_after_STOPPED Double.dumps (Double.Stub_class _ _) 5 self s).
  reflexivity.
Defined.

(** ** [PipeTuner] in the search loop *)

Section PipeTunerRuns.
Context {O Loss Pipe Cfg Data : Type}.
Variable json_dumps : State -> string.
Variable json_loads : string -> option State.
Variable lib : PipeLib O Loss Pipe Cfg Data.
Variable globals : Globals O Pipe Cfg.
Implicit Types (s : St O) (self : PipeTuner O Loss Pipe Cfg Data) (trial : Trial).

Lemma bind_result_Ok {A B} (m : M O Loss A) (k : A -> M O Loss B) s b :
  result (bind m k s) = Ok b ->
  exists a, result (m s) = Ok a /\ result (k a (final (m s))) = Ok b.
Proof.
  unfold bind. destruct (result (m s)) as [a|e]; cbn [result]; [|done].
  intros H. by exists a.
Qed.

Lemma run_trial_no_config self trial s :
  config self = None ->
  PipeTuner_run_trial lib globals self trial s
  = mkRun s [] (Raise (AttributeError "'PipeTuner' object has no attribute 'config'")).
Proof.
  intros Hcfg. unfold PipeTuner_run_trial. rewrite Hcfg.
  by erewrite bind_stop by reflexivity.
Qed.

Lemma get_trial_dir_run (b : BaseTuner O Loss) (id : string) s :
  let root := os_path_join (directory b) (project_name b) in
  get_trial_dir b id s
  = mkRun (ensure_dir (trial_dir root id) (ensure_dir root s))
          [EFs (Op_create_directory root); EFs (Op_create_directory (trial_dir root id))]
          (Ok (trial_dir root id)).
Proof. reflexivity. Qed.

(** X5. [search] with a [PipeTuner] as [__init__] leaves it: the first
    trial that is to be run ends the search with the [AttributeError] of
    [run_trial]. The Oracle has handed out the trial and hears nothing more
    of it (no [update_trial], no [end_trial]); no file is touched. *)
Theorem PipeTuner_search_as_written (oarg : OracleArg O Loss) (model : ModelArg Pipe)
    d p tid (ow : bool) (s0 : St O) self s s1 t (fuel : nat) :
  result (PipeTuner_init json_loads oarg model d p tid ow s0) = Ok self ->
  impl_create_trial (oracle (super self)) (tuner_id (super self)) s = (s1, Ok t) ->
  runnable t ->
  search json_dumps (PipeTuner_class lib globals) (S fuel) self s
  = mkRun s1 [handed_out (tuner_id (super self)) t; EMethod (M_run_trial t) []]
          (Raise (AttributeError "'PipeTuner' object has no attribute 'config'")).
Proof.
  intros Hinit Hcreate [Hns Hni].
  destruct (PipeTuner_init_attributes json_loads oarg model d p tid ow s0 self Hinit)
    as (Hcfg & _).
  pose proof (search_iteration_run json_dumps (PipeTuner_class lib globals) self s) as Hit.
  cbv zeta in Hit. cbn [base run_trial PipeTuner_class] in Hit.
  rewrite Hcreate, !bool_decide_false, run_trial_no_config in Hit by done.
  cbn [result final trace] in Hit.
  simpl. unfold bind. by rewrite Hit.
Qed.

(** X6. What [PipeTuner.run_trial] hands to [on_trial_end], and what
    becomes of it. [run_trial] has no [return]: whenever it returns, it
    returns [None]. With [None], [on_trial_end] tells the Oracle that the
    trial is [COMPLETED], creates the trial's directory, and raises
    [AttributeError] in [save_weights]: [update_space], [Display] and the
    save of the tuner state are not reached. *)
Theorem PipeTuner_on_trial_end_None self trial :
  (forall s m, result (PipeTuner_run_trial lib globals self trial s) = Ok m -> m = None) /\
  (forall s s1,
     impl_end_trial (oracle (super self)) (trial_id trial) COMPLETED s = (s1, Ok tt) ->
     let root := os_path_join (directory (super self)) (project_name (super self)) in
     let r := on_trial_end json_dumps (PipeTuner_class lib globals) self trial None s in
     result r = Raise (AttributeError "'NoneType' object has no attribute 'save_weights'") /\
     oracle_calls (trace r) = [Call_end_trial (trial_id trial) COMPLETED] /\
     fs_ops (trace r) = [Op_create_directory root;
                         Op_create_directory (trial_dir root (trial_id trial))] /\
     final r = ensure_dir (trial_dir root (trial_id trial)) (ensure_dir root s1)).
Proof.
  split.
  - intros s m Hres. unfold PipeTuner_run_trial in Hres.
    repeat (apply bind_result_Ok in Hres as (? & _ & Hres)).
    by injection Hres as <-.
  - intros s s1 Hend root r. subst r.
    unfold on_trial_end. cbn [base save_weights PipeTuner_class].
    erewrite bind_step by (unfold Oracle_end_trial, call; rewrite Hend; reflexivity).
    erewrite bind_stop; cycle 1.
    { rewrite method_run. unfold PipeTuner_save_weights.
      erewrite bind_step by apply get_trial_dir_run.
      unfold after, raise. cbn [result final trace]. reflexivity. }
    fold root. unfold after. cbn [result final trace]. by repeat split.
Qed.
End PipeTunerRuns.

(** A [PipeTuner] as [__init__] leaves it, in the loop. *)
Lemma PipeTuner_search_as_written_witness :
  let t := Double.running "a" [("units", 32)] in
  let s0 := mkSt ∅ (Double.ostate [t] Double.stopped []) in
  let built := PipeTuner_init (Loss:=list Z) (Pipe:=string) (Cfg:=Z) (Data:=unit)
                 Double.loads (AnOracle (Double.scripted (list Z)))
                 (A_CFRecommender "model") None (Some "p") None false s0 in
  let self := mkPipeTuner (mkBaseTuner "." "p" (Double.scripted (list Z)) 0) "model" []
                None None None None None in
  result (search Double.dumps (PipeTuner_class Double.lib module_globals) 3 self
            (final built))
  = Raise (AttributeError "'PipeTuner' object has no attribute 'config'").
Proof.
  intros t s0 built self.
  rewrite (PipeTuner_search_as_written Double.dumps Double.loads Double.lib module_globals
             (AnOracle (Double.scripted (list Z))) (A_CFRecommender "model")
             None (Some "p") None false s0 self (final built)
             (mkSt (fs (final built)) (Double.ostate [] Double.stopped [])) t 2);
    [reflexivity|reflexivity|reflexivity|by split].
Defined.

(** A [PipeTuner] with the names bound, and the value its [run_trial]
    returned. *)
Lemma PipeTuner_on_trial_end_None_witness :
  let self := mkPipeTuner (mkBaseTuner "." "p" (Double.scripted (list Z)) 0) "model" []
                (Some {["ModelOption" := 7]}) (Some tt) (Some tt) (Some tt) (Some tt) in
  let trial := Double.running "a" [("units", 32)] in
  let s := mkSt ∅ (Double.ostate [] Double.stopped []) in
  result (PipeTuner_run_trial Double.lib Double.patched_globals self trial s) = Ok None /\
  result (on_trial_end Double.dumps (PipeTuner_class Double.lib Double.patched_globals)
            self trial None s)
  = Raise (AttributeError "'NoneType' object has no attribute 'save_weights'").
Proof.
  intros self trial s.
  destruct (PipeTuner_on_trial_end_None Double.dumps Double.lib Double.patched_globals
              self trial) as [_ Hend].
  split; [reflexivity|].
  by destruct (Hend s (mkSt ∅ (Double.mkOState [] Double.stopped [] [] [("a", COMPLETED)]))
                 eq_refl) as (Hres & _).
Defined.


(** ** Files and directories of a project *)

Section ProjectFiles.
Context {O Loss : Type}.
Variable json_dumps : State -> string.
Implicit Types (s : St O) (self : BaseTuner O Loss).

Lemma length_append (a b : string) :
  String.length (a +:+ b) = (String.length a + String.length b)%nat.
Proof. induction a as [|c a IH]; simpl; [done|]. by rewrite IH. Qed.

Lemma append_cancel_r (a b c : string) : a +:+ c = b +:+ c -> a = b.
Proof.
  revert b. induction a as [|x a IH]; intros [|y b] H; simpl in *.
  - done.
  - apply (f_equal String.length) in H.
    change (String y b +:+ c) with (String y (b +:+ c)) in H.
    simpl in H. rewrite !length_append in H. simpl in H. lia.
  - apply (f_equal String.length) in H.
    change (String x a +:+ c) with (String x (a +:+ c)) in H.
    simpl in H. rewrite !length_append in H. simpl in H. lia.
  - change (String x (a +:+ c) = String y (b +:+ c)) in H.
    injection H as -> H. f_equal. by apply IH.
Qed.

Lemma os_path_join_inj (a b1 b2 : string) :
  String.prefix "/" b1 = false -> String.prefix "/" b2 = false ->
  os_path_join a b1 = os_path_join a b2 -> b1 = b2.
Proof.
  intros H1 H2. unfold os_path_join. rewrite H1, H2.
  destruct (bool_decide (a = "") || ends_with_sep a); intros H.
  - by apply String.app_inj in H.
  - apply String.app_inj in H. by apply (String.app_inj "/") in H.
Qed.

Lemma state_file_ne_root self :
  state_file self <> os_path_join (directory self) (project_name self).
Proof. unfold state_file. by apply os_path_join_ne. Qed.

Lemma state_file_inj (a b : BaseTuner O Loss) :
  directory a = directory b -> project_name a = project_name b ->
  state_file a = state_file b -> tuner_id a = tuner_id b.
Proof.
  intros Hd Hp. unfold state_file. rewrite Hd, Hp. intros H.
  apply os_path_join_inj in H; [|done..].
  apply (String.app_inj "tuner_") in H. apply append_cancel_r in H.
  by apply pretty_Z_inj in H.
Qed.

(** X7. [save] writes the tuner's own state file and nothing else: every
    other path, the project directory apart (it is created when absent), is
    as it was. In particular the state file of a tuner with another
    [tuner_id] in the same project is another file, and is left alone. *)
Theorem save_keeps_other_files (a : BaseTuner O Loss) s :
  let root := os_path_join (directory a) (project_name a) in
  let r := save json_dumps a s in
  fs_ops (trace r) = [Op_create_directory root;
                      Op_write (state_file a) (json_dumps (get_state a))] /\
  (forall q, q <> root -> q <> state_file a -> fs (final r) !! q = fs s !! q) /\
  (forall node, fs s !! root = Some node -> fs (final r) !! root = Some node) /\
  (forall b : BaseTuner O Loss,
     directory a = directory b -> project_name a = project_name b ->
     tuner_id a <> tuner_id b ->
     state_file b <> state_file a /\
     fs (final r) !! state_file b = fs s !! state_file b).
Proof.
  intros root r. subst r. rewrite save_run. cbv zeta. fold root. fold (state_file a).
  cbn [trace final fs with_fs].
  assert (forall q, q <> root -> q <> state_file a ->
            <[state_file a := File (json_dumps (get_state a))]> (fs (ensure_dir root s)) !! q
            = fs s !! q) as Hother.
  { intros q Hroot Hfile. rewrite lookup_insert_ne by done.
    by apply ensure_dir_lookup_ne. }
  split; [done|]. split; [done|]. split.
  - intros node Hnode. rewrite lookup_insert_ne by apply state_file_ne_root.
    by rewrite (ensure_dir_kept root s node).
  - intros b Hd Hp Htid.
    assert (state_file b <> state_file a) as Hne.
    { intros Heq. apply Htid. symmetry. by apply state_file_inj. }
    split; [done|]. apply Hother; [|done].
    subst root. rewrite Hd, Hp. apply state_file_ne_root.
Qed.

(** X8. [get_trial_dir] returns the directory [trial_<id>] of the project
    and makes sure that it and the project directory exist. It removes and
    overwrites nothing, and calling it again changes nothing. Trials with
    different ids get different directories, and no trial directory is a
    tuner's state file. *)
Theorem get_trial_dir_creates self (id : string) s :
  let root := os_path_join (directory self) (project_name self) in
  let r := get_trial_dir (Loss:=Loss) self id s in
  result r = Ok (trial_dir root id) /\
  is_Some (fs (final r) !! root) /\
  is_Some (fs (final r) !! trial_dir root id) /\
  (forall q node, fs s !! q = Some node -> fs (final r) !! q = Some node) /\
  (forall q, q <> root -> q <> trial_dir root id -> fs (final r) !! q = fs s !! q) /\
  final (get_trial_dir (Loss:=Loss) self id (final r)) = final r /\
  (forall id', id' <> id -> trial_dir root id' <> trial_dir root id) /\
  (forall b : BaseTuner O Loss,
     directory b = directory self -> project_name b = project_name self ->
     state_file b <> trial_dir root id).
Proof.
  intros root r. subst r.
  change (get_trial_dir self id) with
    (fun s => mkRun (O:=O) (Loss:=Loss) (ensure_dir (trial_dir root id) (ensure_dir root s))
                [EFs (Op_create_directory root);
                 EFs (Op_create_directory (trial_dir root id))]
                (Ok (trial_dir root id))).
  cbn [result final].
  assert (forall p q node s', fs s' !! q = Some node ->
            fs (ensure_dir (O:=O) p s') !! q = Some node) as Hkeep.
  { intros p q node s' Hq. destruct (decide (q = p)) as [->|Hne].
    - by rewrite (ensure_dir_kept p s' node).
    - by rewrite ensure_dir_lookup_ne. }
  split; [done|]. split.
  { destruct (ensure_dir_lookup (O:=O) root s) as [node Hnode]. eexists. by apply Hkeep. }
  split; [apply ensure_dir_lookup|]. split; [by eauto|]. split.
  { intros q H1 H2. by rewrite !ensure_dir_lookup_ne. }
  split.
  { destruct (ensure_dir_lookup (O:=O) root s) as [node Hnode].
    rewrite (ensure_dir_kept root _ node) by (by apply Hkeep).
    apply ensure_dir_again. }
  split.
  - intros id' Hne Heq. apply Hne. unfold trial_dir in Heq.
    apply os_path_join_inj in Heq; [|done..].
    by apply (String.app_inj "trial_") in Heq.
  - intros b Hd Hp Heq. unfold state_file, trial_dir in Heq. subst root.
    rewrite Hd, Hp in Heq. apply os_path_join_inj in Heq; [|done..]. discriminate.
Qed.
End ProjectFiles.

(** Two workers of one project save their state. *)
Lemma save_keeps_other_files_witness :
  let a := mkBaseTuner "." "p" (Double.scripted Z) 0 in
  let b := mkBaseTuner "." "p" (Double.scripted Z) 1 in
  let s := final (save Double.dumps b (mkSt ∅ (Double.ostate [] Double.stopped []))) in
  fs (final (save Double.dumps a s)) !! state_file b = Some (File "{}").
Proof.
  intros a b s.
  destruct (save_keeps_other_files Double.dumps a s) as (_ & _ & _ & Hother).
  destruct (Hother b eq_refl eq_refl) as [_ ->]; [done|]. reflexivity.
Defined.

(** The directories of two trials. *)
Lemma get_trial_dir_creates_witness :
  let self := mkBaseTuner "." "p" (Double.scripted Z) 0 in
  trial_dir "./p" "b" <> trial_dir "./p" "a".
Proof.
  intros self.
  destruct (get_trial_dir_creates self "a" (mkSt ∅ (Double.ostate [] Double.stopped [])))
    as (_ & _ & _ & _ & _ & _ & Hids & _).
  by apply Hids.
Defined.

(** ** Construction and the project on disk *)

Section ConstructionOnDisk.
Context {O Loss : Type}.
Variable json_loads : string -> option State.
Implicit Types (s : St O) (d p : option string) (tid : option Z).

Lemma init_reload_not_destructive (self : BaseTuner O Loss) (ow : bool) s :
  Forall (fun op => destructive op = false)
         (fs_ops (trace (init_reload json_loads self ow s))).
Proof.
  destruct ow; [by constructor|].
  rewrite init_reload_false. case_bool_decide.
  - rewrite after_after, method_run, reload_run. unfold after. cbn [trace].
    set (root := os_path_join _ _). set (fname := os_path_join root _).
    destruct (fs (ensure_dir root (ensure_dir root s)) !! fname) as [[|content]|];
      [| destruct (json_loads content) |]; by repeat constructor.
  - by repeat constructor.
Qed.

(** X10. Without [overwrite], constructing a [BaseTuner] removes nothing
    and writes nothing, whatever the [oracle] argument and the state of the
    project: its own file-system operations are [create_directory],
    [exists] and the read of the state file. *)
Theorem init_keep_is_not_destructive (oarg : OracleArg O Loss) d p tid s :
  Forall (fun op => destructive op = false)
         (fs_ops (trace (BaseTuner_init json_loads oarg d p tid false s))).
Proof.
  rewrite BaseTuner_init_run. cbv zeta.
  set (d' := or_default d "."). set (p' := or_default p "untitled_project").
  change (init_remove_project d' p' false s) with (mkRun (Loss:=Loss) s [] (Ok tt)).
  cbn [result final trace app].
  destruct oarg as [o|repr]; [|by constructor].
  destruct (impl_set_project_dir o d' p' false s) as [s1 [[]|e1]]; [|by constructor].
  destruct (impl_get_space o s1) as [s2 [hp|e2]]; [|by constructor].
  destruct (impl_update_space o hp s2) as [s3 [[]|e3]]; [|by constructor].
  cbn [trace]. unfold fs_ops. cbn [flat_map fs_ops_of app].
  apply init_reload_not_destructive.
Qed.

(** X9. With [overwrite=True], when the Oracle's methods return and leave
    the project's place alone: the construction succeeds, the project
    directory and all that was in it are gone afterwards (the directory is
    not made again), and no state is reloaded. *)
Theorem init_overwrite_erases (o : Oracle O Loss) d p tid s :
  let d' := or_default d "." in
  let p' := or_default p "untitled_project" in
  let root := project_root d p in
  (forall content, fs s !! root <> Some (File content)) ->
  (forall q, q = root \/ inside root q = true ->
     returns_keeping q (impl_set_project_dir o d' p' true) /\
     returns_keeping q (impl_get_space o) /\
     forall hp, returns_keeping q (impl_update_space o hp)) ->
  let r := BaseTuner_init json_loads (AnOracle o) d p tid true s in
  (exists self, result r = Ok self) /\
  (forall q, q = root \/ inside root q = true -> fs (final r) !! q = None) /\
  fs_ops (trace r) = [Op_create_directory root; Op_exists root;
                      Op_create_directory root; Op_rmtree root] /\
  (forall inner, EMethod M_reload inner ∉ trace r).
Proof.
  intros d' p' root Hfile Hframe r. subst r.
  rewrite BaseTuner_init_run. cbv zeta. fold d' p'.
  pose proof (init_remove_project_true (Loss:=Loss) d' p' s) as Hrm.
  cbv zeta in Hrm. rewrite Hrm. change (os_path_join d' p') with root.
  destruct (shutil_rmtree_run (Loss:=Loss) root (ensure_dir root s))
    as (Hops & Hfs & _ & Hok).
  destruct Hok as [Hres Hgone]; [|apply ensure_dir_lookup|].
  { intros content Hc. unfold ensure_dir in Hc.
    destruct (fs s !! root) as [node|] eqn:Hroot.
    - rewrite Hroot in Hc. by destruct (Hfile content).
    - simpl in Hc. by rewrite lookup_insert_eq in Hc. }
  remember (shutil_rmtree (Loss:=Loss) root (ensure_dir root s)) as r0 eqn:Hr0.
  clear Hr0 Hrm. unfold after. cbn [result final trace]. rewrite Hres.
  destruct (Hframe root (or_introl eq_refl)) as (Hset & Hget & Hupd).
  destruct (Hset (final r0)) as [_ [[] Hr1]].
  destruct (impl_set_project_dir o d' p' true (final r0)) as [s1 r1] eqn:H1.
  simpl in Hr1. subst r1.
  destruct (Hget s1) as [_ [hp Hr2]].
  destruct (impl_get_space o s1) as [s2 r2] eqn:H2. simpl in Hr2. subst r2.
  destruct (Hupd hp s2) as [_ [[] Hr3]].
  destruct (impl_update_space o hp s2) as [s3 r3] eqn:H3. simpl in Hr3. subst r3.
  cbv zeta.
  change (init_reload json_loads ?self true s3) with (mkRun (Loss:=Loss) s3 [] (Ok tt)).
  cbn [result final trace]. split; [by eexists|]. split; [|split].
  - intros q Hq. destruct (Hframe q Hq) as (Hset' & Hget' & Hupd').
    destruct (Hset' (final r0)) as [Hk1 _]. rewrite H1 in Hk1. simpl in Hk1.
    destruct (Hget' s1) as [Hk2 _]. rewrite H2 in Hk2. simpl in Hk2.
    destruct (Hupd' hp s2) as [Hk3 _]. rewrite H3 in Hk3. simpl in Hk3.
    rewrite Hk3, Hk2, Hk1. by apply Hgone.
  - unfold fs_ops in *. rewrite !flat_map_app. simpl. rewrite Hops. done.
  - intros inner Hin. rewrite app_nil_r in Hin.
    apply elem_of_app in Hin as [Hin|Hin].
    + rewrite Forall_forall in Hfs.
      set_unfold. destruct Hin as [|[|[|Hin]]]; try discriminate.
      by specialize (Hfs _ Hin).
    + set_unfold. destruct Hin as [|[|[|[]]]]; discriminate.
Qed.

(** X11. Without [overwrite], when the Oracle's methods return and leave
    the state file alone: the construction reloads exactly when something
    exists at the path of the tuner's state file; and when nothing does, it
    succeeds without a reload and the project directory exists afterwards. *)
Theorem init_reloads_iff_state_file (o : Oracle O Loss) d p tid s :
  let d' := or_default d "." in
  let p' := or_default p "untitled_project" in
  let fname := tuner_file d p tid in
  returns_keeping fname (impl_set_project_dir o d' p' false) ->
  returns_keeping fname (impl_get_space o) ->
  (forall hp, returns_keeping fname (impl_update_space o hp)) ->
  let r := BaseTuner_init json_loads (AnOracle o) d p tid false s in
  ((exists inner, EMethod M_reload inner ∈ trace r) <-> is_Some (fs s !! fname)) /\
  (fs s !! fname = None ->
   (exists self, result r = Ok self) /\ is_Some (fs (final r) !! project_root d p)).
Proof.
  intros d' p' fname Hset Hget Hupd r. subst r.
  rewrite BaseTuner_init_run. cbv zeta. fold d' p'.
  change (init_remove_project d' p' false s) with (mkRun (Loss:=Loss) s [] (Ok tt)).
  cbn [result final trace app].
  destruct (Hset s) as [Hk1 [[] Hr1]].
  destruct (impl_set_project_dir o d' p' false s) as [s1 r1]. simpl in Hk1, Hr1. subst r1.
  destruct (Hget s1) as [Hk2 [hp Hr2]].
  destruct (impl_get_space o s1) as [s2 r2]. simpl in Hk2, Hr2. subst r2.
  destruct (Hupd hp s2) as [Hk3 [[] Hr3]].
  destruct (impl_update_space o hp s2) as [s3 r3]. simpl in Hk3, Hr3. subst r3.
  cbv zeta. rewrite init_reload_false. cbn [directory project_name tuner_id].
  change (os_path_join d' p') with (project_root d p).
  change (os_path_join (project_root d p)
            ("tuner_" +:+ str (match tid with Some i => i | None => 0 end) +:+ ".json"))
    with fname.
  assert (fs (ensure_dir (project_root d p) s3) !! fname = fs s !! fname) as Hsame.
  { rewrite ensure_dir_lookup_ne by apply tuner_file_ne_root.
    by rewrite Hk3, Hk2, Hk1. }
  rewrite Hsame. case_bool_decide as Hex.
  - rewrite after_after, method_run. unfold after. cbn [result final trace].
    split; [|intros Hnone; rewrite Hnone in Hex; by destruct Hex].
    split; [done|]. intros _. eexists.
    do 6 apply list_elem_of_further. apply list_elem_of_here.
  - unfold after. cbn [result final trace]. split.
    + split; [|done]. intros [inner Hin]. set_unfold.
      destruct Hin as [|[|[|[|[|[]]]]]]; discriminate.
    + intros _. split; [by eexists|]. apply ensure_dir_lookup.
Qed.
End ConstructionOnDisk.

(** A project with a saved state, overwritten. *)
Lemma init_overwrite_erases_witness :
  let s := mkSt (<["./p/tuner_0.json" := File "{}"]> (<["./p" := Dir]> ∅))
                (Double.ostate [] Double.stopped []) in
  let r := BaseTuner_init (Loss:=Z) Double.loads (AnOracle (Double.scripted Z))
             None (Some "p") None true s in
  (exists self, result r = Ok self) /\
  fs (final r) !! "./p/tuner_0.json" = None /\ fs (final r) !! "./p" = None.
Proof.
  intros s r.
  assert (forall content, fs s !! project_root None (Some "p") <> Some (File content))
    as Hfile by (intros content; vm_compute; discriminate).
  assert (forall q, q = project_root None (Some "p") \/
                    inside (project_root None (Some "p")) q = true ->
            returns_keeping q (impl_set_project_dir (Double.scripted Z) "." "p" true) /\
            returns_keeping q (impl_get_space (Double.scripted Z)) /\
            forall hp, returns_keeping q (impl_update_space (Double.scripted Z) hp))
    as Hframe.
  { intros q _. split; [|split]; [| |intros hp]; intros s';
      (split; [reflexivity|by eexists]). }
  destruct (init_overwrite_erases Double.loads (Double.scripted Z) None (Some "p") None s
              Hfile Hframe) as (Hok & Hgone & _).
  split; [exact Hok|]. split; apply Hgone; [right|left]; reflexivity.
Defined.

(** A fresh directory: nothing to reload. *)
Lemma init_reloads_iff_state_file_witness :
  let s := mkSt ∅ (Double.ostate [] Double.stopped []) in
  let r := BaseTuner_init (Loss:=Z) Double.loads (AnOracle (Double.scripted Z))
             None (Some "p") None false s in
  (exists self, result r = Ok self) /\ is_Some (fs (final r) !! project_root None (Some "p")).
Proof.
  intros s r.
  assert (returns_keeping (tuner_file None (Some "p") None)
            (impl_set_project_dir (Double.scripted Z) "." "p" false)) as Hset
    by (intros s'; split; [reflexivity|by eexists]).
  assert (returns_keeping (tuner_file None (Some "p") None)
            (impl_get_space (Double.scripted Z))) as Hget
    by (intros s'; split; [reflexivity|by eexists]).
  assert (forall hp, returns_keeping (tuner_file None (Some "p") None)
                       (impl_update_space (Double.scripted Z) hp)) as Hupd
    by (intros hp s'; split; [reflexivity|by eexists]).
  destruct (init_reloads_iff_state_file Double.loads (Double.scripted Z)
              None (Some "p") None s Hset Hget Hupd) as [_ Hnone].
  apply Hnone. reflexivity.
Defined.

(** ** [get_best_models] when a model cannot be loaded *)

Section BestModelsFailure.
Context {O Loss Self Model : Type}.
Variable cls : TunerClass O Loss Self Model.
Implicit Types (s : St O) (self : Self) (t : Trial).

Lemma comprehension_first_failure self (e : exn) : forall (ts : list Trial) (i : nat) t s,
  ts !! i = Some t ->
  (forall t' s', t' ∈ take i ts -> exists m, result (load_model cls self t' s') = Ok m) ->
  (forall s', result (load_model cls self t s') = Raise e) ->
  let r := comprehension
             (fun t => method (M_load_model t) (load_model cls self t)) ts s in
  result r = Raise e /\ load_model_calls (trace r) = take (S i) ts.
Proof.
  induction ts as [|x ts IH]; intros i t s Hi Hbefore Hraise; [done|].
  destruct i as [|i].
  - injection Hi as ->. cbn [comprehension].
    erewrite bind_stop by (rewrite method_run, Hraise; reflexivity). done.
  - cbn [comprehension].
    destruct (Hbefore x s) as [m Hm]; [apply list_elem_of_here|].
    erewrite bind_step by (rewrite method_run, Hm; reflexivity).
    destruct (IH i t (final (load_model cls self x s)) Hi) as [Hres Hcalls]; [|done|].
    { intros t' s' Hin. apply Hbefore. by apply list_elem_of_further. }
    cbv zeta in Hres, Hcalls. unfold bind, after. rewrite Hres. cbn [result trace].
    split; [done|]. change (take (S (S i)) (x :: ts)) with (x :: take (S i) ts).
    rewrite <- Hcalls. reflexivity.
Qed.

(** X12. [get_best_models] when something fails. If the Oracle's
    [get_best_trials] raises, that exception comes out and [load_model] is
    not called. If it returns no trial, the result is the empty list. If
    [load_model] returns for the first [i] trials and raises for the next,
    that exception comes out: no model is returned, and the trials after
    it are not loaded. *)
Theorem get_best_models_failures self (n : nat) s s1 (a : Result (list Trial)) :
  impl_get_best_trials (oracle (base cls self)) n s = (s1, a) ->
  let r := get_best_models cls self n s in
  match a with
  | Raise e => r = mkRun s1 [EOracle (Call_get_best_trials n)] (Raise e)
  | Ok ts =>
      (ts = [] -> r = mkRun s1 [EOracle (Call_get_best_trials n)] (Ok [])) /\
      (forall (i : nat) t e,
         ts !! i = Some t ->
         (forall t' s', t' ∈ take i ts ->
            exists m, result (load_model cls self t' s') = Ok m) ->
         (forall s', result (load_model cls self t s') = Raise e) ->
         result r = Raise e /\ load_model_calls (trace r) = take (S i) ts)
  end.
Proof.
  intros Hbest r. subst r. unfold get_best_models, Oracle_get_best_trials.
  destruct a as [ts|e].
  - erewrite bind_step by (unfold call; rewrite Hbest; reflexivity).
    split.
    + intros ->. reflexivity.
    + intros i t e Hi Hbefore Hraise.
      destruct (comprehension_first_failure self e ts i t s1 Hi Hbefore Hraise)
        as [Hres Hcalls].
      unfold after. cbn [result trace app load_model_calls omap]. done.
  - erewrite bind_stop by (unfold call; rewrite Hbest; reflexivity). done.
Qed.
End BestModelsFailure.

(** [BaseTuner] itself, on an Oracle that ranks two trials. *)
Lemma get_best_models_failures_witness :
  let self := mkBaseTuner "." "p" (Double.scripted Z) 0 in
  let best := [Double.running "b" []; Double.running "a" []] in
  let s := mkSt ∅ (Double.ostate [] Double.stopped best) in
  let r := get_best_models (BaseTuner_class (option string)) self 5 s in
  result r = Raise NotImplementedError /\
  load_model_calls (trace r) = [Double.running "b" []].
Proof.
  intros self best s r.
  pose proof (get_best_models_failures (BaseTuner_class (option string)) self 5 s s
                (Ok best) eq_refl) as [_ Hfail].
  apply (Hfail 0%nat (Double.running "b" []) NotImplementedError).
  - reflexivity.
  - intros t' s' Hin. by apply elem_of_nil in Hin.
  - reflexivity.
Defined.

(** ** The weights of a trial *)

Section PipeWeights.
Context {O Loss Pipe Cfg Data : Type}.
Variable lib : PipeLib O Loss Pipe Cfg Data.
Implicit Types (s : St O) (self : PipeTuner O Loss Pipe Cfg Data) (trial : Trial).

(** X13. [save_weights] and then [load_model] of the same trial: both
    address the same directory [<project>/trial_<id>]; [load_model] builds
    its pipeline from [self._pipe] with the trial's hyperparameters (not
    from the pipeline that was saved), loads the weights from that
    directory into it, and returns it; making the directories again changes
    nothing once the library has left them in place. *)
Theorem PipeTuner_weights_round_trip self trial (p built loaded : Pipe) s s1 s2 s3 :
  let root := os_path_join (directory (super self)) (project_name (super self)) in
  let tdir := trial_dir root (trial_id trial) in
  lib_save_weights lib p tdir (ensure_dir tdir (ensure_dir root s)) = (s1, Ok tt) ->
  is_Some (fs s1 !! root) -> is_Some (fs s1 !! tdir) ->
  lib_hyper_build lib (_pipe self) (hyperparameters trial) s1 = (s2, Ok built) ->
  lib_load_weights lib built tdir s2 = (s3, Ok loaded) ->
  (PipeTuner_save_weights lib self trial (Some p) ;;
   PipeTuner_load_model lib self trial)%py s
  = mkRun s3 [EFs (Op_create_directory root); EFs (Op_create_directory tdir);
              EPipe (Call_pipe_save_weights tdir);
              EFs (Op_create_directory root); EFs (Op_create_directory tdir);
              EPipe (Call_hyper_build (hyperparameters trial));
              EPipe (Call_pipe_load_weights tdir)]
          (Ok (Some loaded)).
Proof.
  intros root tdir Hsave [nr Hroot] [nt Htdir] Hbuild Hload.
  assert (PipeTuner_save_weights lib self trial (Some p) s
          = mkRun s1 [EFs (Op_create_directory root); EFs (Op_create_directory tdir);
                      EPipe (Call_pipe_save_weights tdir)] (Ok tt)) as Hs.
  { unfold PipeTuner_save_weights.
    erewrite bind_step by apply get_trial_dir_run. fold root tdir.
    unfold call. rewrite Hsave. reflexivity. }
  assert (PipeTuner_load_model lib self trial s1
          = mkRun s3 [EFs (Op_create_directory root); EFs (Op_create_directory tdir);
                      EPipe (Call_hyper_build (hyperparameters trial));
                      EPipe (Call_pipe_load_weights tdir)] (Ok (Some loaded))) as Hl.
  { unfold PipeTuner_load_model.
    erewrite bind_step by apply get_trial_dir_run. fold root tdir.
    rewrite (ensure_dir_kept root s1 nr Hroot), (ensure_dir_kept tdir s1 nt Htdir).
    erewrite bind_step
      by (unfold _get_pipeline, call; rewrite Hbuild; reflexivity).
    erewrite bind_step by (unfold call; rewrite Hload; reflexivity).
    reflexivity. }
  erewrite bind_step by exact Hs. rewrite Hl. reflexivity.
Qed.

(** X14. [load_model] makes the trial's directory before it looks for
    anything in it: when the library leaves that path alone, the directory
    exists after [load_model], also for a trial whose weights were never
    saved and also when building the pipeline or loading the weights raises. *)
Theorem PipeTuner_load_model_leaves_dir self trial s :
  let root := os_path_join (directory (super self)) (project_name (super self)) in
  let tdir := trial_dir root (trial_id trial) in
  (forall pipe hp s', fs (lib_hyper_build lib pipe hp s').1 !! tdir = fs s' !! tdir) ->
  (forall pipe s', fs (lib_load_weights lib pipe tdir s').1 !! tdir = fs s' !! tdir) ->
  let r := PipeTuner_load_model lib self trial s in
  is_Some (fs (final r) !! tdir) /\
  take 2 (trace r) = [EFs (Op_create_directory root); EFs (Op_create_directory tdir)].
Proof.
  intros root tdir Hbuild Hload r. subst r. unfold PipeTuner_load_model.
  erewrite bind_step by apply get_trial_dir_run. fold root tdir.
  set (s0 := ensure_dir tdir (ensure_dir root s)).
  assert (is_Some (fs s0 !! tdir)) as H0 by apply ensure_dir_lookup.
  unfold _get_pipeline, bind, call, ret.
  specialize (Hbuild (_pipe self) (hyperparameters trial) s0).
  destruct (lib_hyper_build lib (_pipe self) (hyperparameters trial) s0) as [s1 [built|e]];
    simpl in Hbuild; cbn [after result final trace app take].
  - specialize (Hload built s1).
    destruct (lib_load_weights lib built tdir s1) as [s2 [loaded|e]];
      simpl in Hload; cbn [after result final trace app take];
      (split; [by rewrite Hload, Hbuild|done]).
  - split; [by rewrite Hbuild|done].
Qed.
End PipeWeights.

(** A pipeline saved and loaded again through the library of the doubles. *)
Lemma PipeTuner_weights_round_trip_witness :
  let b := mkBaseTuner "." "p" (Double.scripted (list Z)) 0 in
  let self := mkPipeTuner (Cfg:=Z) (Data:=unit) b "base" [] None None None None None in
  let trial := Double.running "7" [] in
  let s := mkSt ∅ (Double.ostate [] Double.stopped []) in
  result ((PipeTuner_save_weights Double.lib self trial (Some "w") ;;
           PipeTuner_load_model Double.lib self trial)%py s) = Ok (Some "w").
Proof.
  intros b self trial s.
  erewrite (PipeTuner_weights_round_trip Double.lib self trial "w" "base" "w" s).
  - reflexivity.
  - reflexivity.
  - vm_compute. by eexists.
  - vm_compute. by eexists.
  - reflexivity.
  - vm_compute. reflexivity.
Defined.

(** A trial whose weights were never saved: loading fails, the directory
    is there. *)
Lemma PipeTuner_load_model_leaves_dir_witness :
  let b := mkBaseTuner "." "p" (Double.scripted (list Z)) 0 in
  let self := mkPipeTuner (Cfg:=Z) (Data:=unit) b "base" [] None None None None None in
  let trial := Double.running "7" [] in
  let s := mkSt ∅ (Double.ostate [] Double.stopped []) in
  let r := PipeTuner_load_model Double.lib self trial s in
  result r = Raise (Raised "no weights") /\ is_Some (fs (final r) !! "./p/trial_7").
Proof.
  intros b self trial s r. split; [reflexivity|].
  apply (PipeTuner_load_model_leaves_dir Double.lib self trial s).
  - intros pipe hp s'. reflexivity.
  - intros pipe s'. reflexivity.
Defined.
